(** * nsddataBot: the news monitor of [bot.py], embedded and verified

    The development follows [bot.py]: the [NSDMonitor] class (the two SQLite
    tables, the page extractor, the fetcher, the ingestion cycle) and the
    command handlers that call it ([/add], [/check], the scheduled check).

    Python strings are sequences of Unicode code points, SQLite tables are
    lists of rows in insertion order, the remote site and the wall clock are
    explicit inputs, and what the program takes from its libraries without
    defining it (the HTML parser, the Unicode case and digit tables) is a
    variable of the section that holds the program. *)

From Stdlib Require Import String Ascii NArith ZArith Lia Bool.
From stdpp Require Import base decidable option numbers list.

Local Open Scope N_scope.

(** ** Python strings *)

(** A [str] is a sequence of code points. *)
Definition pystr := list N.

(** String constants of the source are written as they stand in [bot.py];
    the file is UTF-8 and [lit] decodes a constant to its code points. *)
Fixpoint utf8_decode (bs : list N) : pystr :=
  match bs with
  | [] => []
  | b :: rest =>
      if b <? 128 then b :: utf8_decode rest
      else if b <? 224 then
        match rest with
        | c1 :: rest1 => ((b - 192) * 64 + (c1 - 128)) :: utf8_decode rest1
        | _ => []
        end
      else if b <? 240 then
        match rest with
        | c1 :: c2 :: rest2 =>
            ((b - 224) * 4096 + (c1 - 128) * 64 + (c2 - 128)) :: utf8_decode rest2
        | _ => []
        end
      else
        match rest with
        | c1 :: c2 :: c3 :: rest3 =>
            ((b - 240) * 262144 + (c1 - 128) * 4096 + (c2 - 128) * 64 + (c3 - 128))
              :: utf8_decode rest3
        | _ => []
        end
  end.

Definition lit (s : string) : pystr :=
  utf8_decode (map N_of_ascii (list_ascii_of_string s)).

(** Code-point and string equality, as [==] on [str]. *)
Definition str_eqb (a b : pystr) : bool := bool_decide (a = b).

(** [s.startswith(p)] *)
Fixpoint startswith (p s : pystr) : bool :=
  match p, s with
  | [], _ => true
  | _ :: _, [] => false
  | c :: p', d :: s' => (c =? d) && startswith p' s'
  end.

(** [needle in hay] on strings: some suffix of [hay] starts with [needle]. *)
Fixpoint contains (needle hay : pystr) : bool :=
  startswith needle hay ||
  match hay with
  | [] => false
  | _ :: hay' => contains needle hay'
  end.

(** [s.split(sep)] for a one-character separator: the pieces between the
    separators, never an empty list. *)
Fixpoint split_on (sep : N) (s : pystr) : list pystr :=
  match s with
  | [] => [[]]
  | c :: s' =>
      if c =? sep then [] :: split_on sep s'
      else match split_on sep s' with
           | [] => [[c]]
           | piece :: pieces => (c :: piece) :: pieces
           end
  end.

(** [l[-1]] on a list that [split] returned. *)
Definition last_piece (l : list pystr) : pystr := List.last l [].

(** Python's [str.isspace] on one code point ([Py_UNICODE_ISSPACE]); [strip]
    and the [\s] of [re] both use it. *)
Definition isspace (c : N) : bool :=
  ((9 <=? c) && (c <=? 13)) || ((28 <=? c) && (c <=? 32))
  || (c =? 133) || (c =? 160) || (c =? 5760)
  || ((8192 <=? c) && (c <=? 8202))
  || (c =? 8232) || (c =? 8233) || (c =? 8239) || (c =? 8287) || (c =? 12288).

Fixpoint lstrip (s : pystr) : pystr :=
  match s with
  | [] => []
  | c :: s' => if isspace c then lstrip s' else s
  end.

Definition rstrip (s : pystr) : pystr := rev (lstrip (rev s)).

(** [s.strip()] *)
Definition strip (s : pystr) : pystr := rstrip (lstrip s).

(** ASCII ranges used by the patterns of the source. *)
Definition is_ascii_digit (c : N) : bool := (48 <=? c) && (c <=? 57).
Definition is_ascii_upper (c : N) : bool := (65 <=? c) && (c <=? 90).
Definition is_ascii_lower (c : N) : bool := (97 <=? c) && (c <=? 122).

(** The character class [[0-9A-Z]]. *)
Definition is_isin_char (c : N) : bool := is_ascii_digit c || is_ascii_upper c.


(** Longest prefix of [s] whose characters satisfy [p], and the rest. *)
Fixpoint span (p : N -> bool) (s : pystr) : pystr * pystr :=
  match s with
  | [] => ([], [])
  | c :: s' =>
      if p c then let '(run, rest) := span p s' in (c :: run, rest)
      else ([], s)
  end.

(** ** The ISIN patterns *)

(** [RU[0-9A-Z]{10}] matched at the start of [s]; the matched text. *)
Definition match_isin_prefix (s : pystr) : option pystr :=
  if startswith (lit "RU") s then
    let body := take 10 (drop 2 s) in
    if (length body =? 10)%nat && forallb is_isin_char body
    then Some (take 12 s) else None
  else None.

(** [re.search(r'RU[0-9A-Z]{10}', s)]: the leftmost match, [group(0)]. *)
Fixpoint search_isin (s : pystr) : option pystr :=
  match match_isin_prefix s with
  | Some m => Some m
  | None => match s with
            | [] => None
            | _ :: s' => search_isin s'
            end
  end.

(** [re.match(r'^RU[0-9A-Z]{10}$', s)] as a truth value. Without
    [re.MULTILINE] the [$] of Python matches at the end of the string and
    also just before a line feed that ends the string. *)
Definition match_isin_full (s : pystr) : bool :=
  match match_isin_prefix s with
  | Some _ => let rest := drop 12 s in str_eqb rest [] || str_eqb rest [10]
  | None => false
  end.

(** ** The wall clock *)

(** What [datetime.now()] returns, as far as [strftime("%d.%m.%Y")] reads it. *)
Record datetime := { dt_year : N; dt_month : N; dt_day : N }.

Definition digit_char (d : N) : N := 48 + d.

(** [%d] and [%m]: two digits, zero padded. *)
Definition two_digits (n : N) : pystr :=
  [digit_char (n / 10 mod 10); digit_char (n mod 10)].

(** [%Y]: the year in decimal (years run from 1 to 9999; below 1000 the C
    library prints them without padding). *)
Definition year_digits (y : N) : pystr :=
  let ds := [y / 1000 mod 10; y / 100 mod 10; y / 10 mod 10] in
  map digit_char (snd (span (N.eqb 0) ds)) ++ [digit_char (y mod 10)].

(** [now.strftime("%d.%m.%Y")] *)
Definition strftime_dmy (now : datetime) : pystr :=
  two_digits (dt_day now) ++ lit "." ++ two_digits (dt_month now)
    ++ lit "." ++ year_digits (dt_year now).

(** ** The parsed page *)

(** A tag of the document that BeautifulSoup built: its name, the two
    attributes the program reads ([class] is multi-valued: the list of its
    tokens, empty when the attribute is absent) and the text nodes below
    it, in document order. *)
Record element := {
  el_name : pystr;
  el_href : option pystr;
  el_class : list pystr;
  el_strings : list pystr
}.

(** [tag.get_text()] *)
Definition get_text (e : element) : pystr := concat (el_strings e).

(** [tag.get_text(strip=True)]: every text node stripped, empty ones dropped. *)
Definition get_text_stripped (e : element) : pystr :=
  concat (filter (fun s => negb (str_eqb s [])) (map strip (el_strings e))).

Definition has_name (name : pystr) (e : element) : bool :=
  str_eqb (el_name e) name.

(** [soup.find(name)]: the first tag of that name, in document order. *)
Definition find (name : pystr) (soup : list element) : option element :=
  List.find (has_name name) soup.

(** The attribute filter [href=re.compile(pat)] for a pattern without
    metacharacters: the attribute is present and [pat] occurs in it. *)
Definition href_matches (pat : pystr) (e : element) : bool :=
  match el_href e with
  | Some h => contains pat h
  | None => false
  end.

(** [class_=re.compile(pat)]: some token of the class list, or the tokens
    joined by spaces, contains [pat]. *)
Definition join_space (l : list pystr) : pystr :=
  match l with
  | [] => []
  | s :: l' => s ++ concat (map (fun t => 32 :: t) l')
  end.

Definition class_matches (pat : pystr) (e : element) : bool :=
  match el_class e with
  | [] => false
  | toks => existsb (contains pat) toks || contains pat (join_space toks)
  end.

(** ** Records and tables *)

(** The dictionary [parse_news_page] returns. *)
Record news_details := {
  nd_title : pystr;
  nd_isin : option pystr;
  nd_event_type : pystr;
  nd_payment_amount : option pystr;
  nd_published_date : pystr
}.

(** The dictionary [get_recent_news] builds for a candidate, which is also
    what [save_news] writes into a row of [tracked_news] (the columns [id]
    and [created_at] are filled by SQLite and read by nothing). *)
Record news := {
  news_id : pystr;
  news_url : pystr;
  title : pystr;
  isin : option pystr;
  event_type : pystr;
  payment_amount : option pystr;
  published_date : pystr
}.

(** The database file: [tracked_news] exists from [setup_database] on;
    [user_isins] is created by the first [add_isin_tracking] and is [None]
    until then. Rows are kept in insertion order. *)
Record database := {
  tracked_news : list news;
  user_isins : option (list (Z * pystr))
}.

(** Exceptions the modelled code can meet. *)
Inductive request_failure := ConnectionError | Timeout.

Inductive exn :=
  | OperationalError            (* sqlite3: no such table *)
  | RequestException (f : request_failure)
  | ParserRejectedMarkup        (* bs4: html.parser gave the markup up *)
  | OverflowError               (* sqlite3: integer parameter beyond 64 bits *)
  | UnicodeEncodeError.         (* sqlite3: text parameter with a surrogate *)

Inductive result (A : Type) :=
  | Ok (a : A)
  | Raise (e : exn).
Arguments Ok {A} a.
Arguments Raise {A} e.

(** What [requests.get] does for the one request of a cycle. *)
Inductive fetch_outcome :=
  | Responded (status_code : Z) (text : pystr)
  | Failed (f : request_failure).

(** The answer of the [/add] handler. *)
Inductive add_reply :=
  | ReplyUsage
  | ReplyInvalidFormat
  | ReplyAdded (isin_code : pystr)
  | ReplyAlreadyTracked (isin_code : pystr).

(** ** What sqlite3 binds *)

(** An [INTEGER] parameter is a signed 64-bit number. *)
Definition fits_int64 (z : Z) : bool :=
  ((- 9223372036854775808 <=? z) && (z <=? 9223372036854775807))%Z.

(** A [TEXT] parameter is encoded in UTF-8, which has no code for the
    surrogates U+D800 to U+DFFF. *)
Definition is_surrogate (c : N) : bool := (55296 <=? c) && (c <=? 57343).
Definition encodable (s : pystr) : bool := forallb (fun c => negb (is_surrogate c)) s.

(** ** Sample library tables, for running the program on concrete inputs *)

(** Upper-casing of the few code points above 127 used in examples. *)
Definition sample_unicode_upper (c : N) : list N :=
  if c =? 223 then [83; 83]                                 (* sharp s *)
  else if c =? 305 then [73]                                (* dotless i *)
  else if (1072 <=? c) && (c <=? 1103) then [c - 32]        (* Cyrillic *)
  else [c].

(** Lower-casing on ASCII and basic Cyrillic. *)
Definition sample_str_lower (s : pystr) : pystr :=
  map (fun c => if is_ascii_upper c || ((1040 <=? c) && (c <=? 1071))
                then c + 32 else c) s.

Definition sample_unicode_decimal (c : N) : bool := false.

(** A parser stand-in for examples: the document is given by its tags,
    whatever the text. *)
Definition sample_parser (doc : list element) (text : pystr) : list element := doc.

(** A piece of markup that [html.parser] of Python 3.11 gives up on (a
    marked section with an unknown name). *)
Definition sample_parser_rejects (text : pystr) : bool :=
  str_eqb text (lit "<![x y]>").

(** ** Sample inputs *)

(** The database file right after [setup_database] created it. *)
Definition empty_db : database := {| tracked_news := []; user_isins := None |}.

Definition anchor (href text : pystr) : element :=
  {| el_name := lit "a"; el_href := Some href; el_class := []; el_strings := [text] |}.

Definition heading (text : pystr) : element :=
  {| el_name := lit "h1"; el_href := None; el_class := []; el_strings := [text] |}.

(** A clock that stands still during a cycle. *)
Definition march_7 (k : nat) : datetime :=
  {| dt_year := 2025; dt_month := 3; dt_day := 7 |}.

(** The text of an index page and three variants of its tags: two items
    under one heading, the same link twice, and a path-relative link. *)
Definition index_text : pystr :=
  lit "<h1>Выплата купонного дохода RU000A106SE5</h1> ... 12,50 руб. ...".

Definition page_two_items : list element :=
  [ heading (lit "Выплата купонного дохода RU000A106SE5");
    anchor (lit "/ru/news/view/101") (lit "Купон");
    anchor (lit "/ru/news/view/102") (lit "Оферта") ].


Definition page_relative_link : list element :=
  [ anchor (lit "../ru/news/view/7") (lit "Погашение") ].

Definition sample_news (id : pystr) : news :=
  {| news_id := id;
     news_url := lit "https://nsddata.ru/ru/news/view/" ++ id;
     title := lit "Купон";
     isin := Some (lit "RU000A106SE5");
     event_type := lit "Выплата купонного дохода";
     payment_amount := None;
     published_date := lit "07.03.2025" |}.

(** ** The program *)

Section Bot.

(** What the program takes from its libraries:
    - [html_parser text] is [BeautifulSoup(text, 'html.parser')], as the
      tags of the document in document order;
    - [unicode_upper c] is [chr(c).upper()] for a code point above 127;
    - [str_lower s] is [s.lower()];
    - [unicode_decimal c] tells whether [\d] matches a code point above 127. *)
Variable html_parser : pystr -> list element.
Variable unicode_upper : N -> list N.
Variable str_lower : pystr -> pystr.
Variable unicode_decimal : N -> bool.

(** [chr(c).upper()] *)
Definition upper_char (c : N) : list N :=
  if c <? 128 then [if is_ascii_lower c then c - 32 else c]
  else unicode_upper c.

(** [s.upper()]: every character replaced by its upper-case form. *)
Definition upper (s : pystr) : pystr := concat (map upper_char s).

(** [\d] *)
Definition is_decimal (c : N) : bool :=
  if c <? 128 then is_ascii_digit c else unicode_decimal c.

(** A lower-case Cyrillic letter of a pattern under [re.IGNORECASE]: the
    letter itself or its capital, 32 code points below. *)
Definition matches_ignorecase (pat c : N) : bool := (c =? pat) || (c =? pat - 32).

Fixpoint startswith_ignorecase (p s : pystr) : bool :=
  match p, s with
  | [], _ => true
  | _ :: _, [] => false
  | c :: p', d :: s' => matches_ignorecase c d && startswith_ignorecase p' s'
  end.

(** [(\d+[.,]\d+)\s*руб] matched at the start of [s]; [group(1)]. Every
    repetition of the pattern is followed by something it cannot itself
    match, so the greedy choice is the only one. *)
Definition match_payment_prefix (s : pystr) : option pystr :=
  let '(int_part, r1) := span is_decimal s in
  match int_part, r1 with
  | _ :: _, sep :: r2 =>
      if (sep =? 46) || (sep =? 44) then
        let '(frac_part, r3) := span is_decimal r2 in
        match frac_part with
        | _ :: _ =>
            if startswith_ignorecase (lit "руб") (snd (span isspace r3))
            then Some (int_part ++ sep :: frac_part) else None
        | [] => None
        end
      else None
  | _, _ => None
  end.

(** [re.search(r'(\d+[.,]\d+)\s*руб', s, re.IGNORECASE)]: [group(1)] of the
    leftmost match. *)
Fixpoint search_payment (s : pystr) : option pystr :=
  match match_payment_prefix s with
  | Some g => Some g
  | None => match s with
            | [] => None
            | _ :: s' => search_payment s'
            end
  end.

(** *** NSDMonitor *)

Definition base_url : pystr := lit "https://nsddata.ru".

(** [add_isin_tracking]: the table is created when missing, then
    [INSERT OR IGNORE] under [UNIQUE(user_id, isin)]; the result is
    [cursor.rowcount > 0]. *)
Definition add_isin_tracking (isin_code : pystr) (user_id : Z) (db : database)
  : database * bool :=
  let rows := default [] (user_isins db) in
  let row := (user_id, upper isin_code) in
  if bool_decide (row ∈ rows)
  then ({| tracked_news := tracked_news db; user_isins := Some rows |}, false)
  else ({| tracked_news := tracked_news db; user_isins := Some (rows ++ [row]) |}, true).

(** [add_isin_tracking] on any identifier and any string. [CREATE TABLE]
    has run when sqlite3 binds the two parameters of the [INSERT], the
    identifier first: an identifier beyond 64 bits raises [OverflowError], an
    upper-cased string with a surrogate raises [UnicodeEncodeError], and the
    [INSERT] is not executed. [add_isin_tracking] above is the call on
    parameters that sqlite3 binds, as [/add] passes them. *)
Definition add_isin_tracking_call (isin_code : pystr) (user_id : Z) (db : database)
  : database * result bool :=
  let created := {| tracked_news := tracked_news db;
                    user_isins := Some (default [] (user_isins db)) |} in
  if negb (fits_int64 user_id) then (created, Raise OverflowError)
  else if negb (encodable (upper isin_code)) then (created, Raise UnicodeEncodeError)
  else
    let '(db', added) := add_isin_tracking isin_code user_id db in
    (db', Ok added).

(** [get_user_isins]: [SELECT isin FROM user_isins WHERE user_id = ?]. The
    query fails when the table was never created. SQL leaves the order of
    the rows open (SQLite reads them off the index of the [UNIQUE]
    constraint, sorted by code); the rows are kept here in insertion order,
    and the statements below speak of membership, counts and permutations
    only. *)
Definition listed_codes (user_id : Z) (rows : list (Z * pystr)) : list pystr :=
  map snd (filter (fun row => bool_decide (fst row = user_id)) rows).

Definition get_user_isins (user_id : Z) (db : database) : result (list pystr) :=
  match user_isins db with
  | None => Raise OperationalError
  | Some rows => Ok (listed_codes user_id rows)
  end.

(** [is_news_tracked] *)
Definition is_news_tracked (id : pystr) (db : database) : bool :=
  existsb (fun row => str_eqb (news_id row) id) (tracked_news db).

(** [save_news]: [INSERT OR IGNORE] under [news_id TEXT UNIQUE]; the result
    is [cursor.rowcount > 0]. *)
Definition save_news (news_data : news) (db : database) : database * bool :=
  if existsb (fun row => str_eqb (news_id row) (news_id news_data)) (tracked_news db)
  then (db, false)
  else ({| tracked_news := tracked_news db ++ [news_data];
           user_isins := user_isins db |}, true).

(** The three keyword tests of [parse_news_page], first match wins. *)
Definition detect_event_type (title : pystr) : pystr :=
  if contains (lit "выплата купонного дохода") (str_lower title)
  then lit "Выплата купонного дохода"
  else if contains (lit "погашение") (str_lower title) then lit "Погашение"
  else if contains (lit "оферта") (str_lower title) then lit "Оферта"
  else lit "Неизвестно".

(** [soup.find('time') or soup.find('div', class_=re.compile('date'))]. A
    tag is always truthy, so the result is the first of the two that is not
    [None]. *)
Definition find_date_element (soup : list element) : option element :=
  match find (lit "time") soup with
  | Some e => Some e
  | None => List.find (fun e => has_name (lit "div") e && class_matches (lit "date") e) soup
  end.

(** [parse_news_page] once [BeautifulSoup] has built the document; [now]
    is what [datetime.now()] returns if it is called. *)
Definition parse_news_page (now : datetime) (html_content : pystr) : news_details :=
  let soup := html_parser html_content in
  let title :=
    match find (lit "h1") soup with
    | Some title_element => strip (get_text title_element)
    | None => lit "Неизвестно"
    end in
  let isin := search_isin title in
  let event_type := detect_event_type title in
  let payment_amount :=
    match search_payment html_content with
    | Some g => Some (g ++ lit " руб.")
    | None => None
    end in
  let published_date :=
    match find_date_element soup with
    | Some e => strip (get_text e)
    | None => strftime_dmy now
    end in
  {| nd_title := title; nd_isin := isin; nd_event_type := event_type;
     nd_payment_amount := payment_amount; nd_published_date := published_date |}.

(** [parse_news_page] as it is called: the first statement builds the
    document, and the function has no handler for the exception of the
    parser. [parser_rejects text] tells whether
    [BeautifulSoup(text, 'html.parser')] raises [ParserRejectedMarkup]
    instead of building a document. (Inside [get_recent_news] that
    exception ends in the handler, with the result of a page without tags.) *)
Definition parse_news_page_call (parser_rejects : pystr -> bool) (now : datetime)
    (html_content : pystr) : result news_details :=
  if parser_rejects html_content then Raise ParserRejectedMarkup
  else Ok (parse_news_page now html_content).

(** [soup.find_all('a', href=re.compile(r'/ru/news/view/'))] *)
Definition find_news_elements (soup : list element) : list element :=
  filter (fun e => has_name (lit "a") e && href_matches (lit "/ru/news/view/") e) soup.

(** The body of the [for] loop of [get_recent_news] for one element: the
    candidate it appends, if any. [page] is [response.text]. *)
Definition candidate_of (now : datetime) (page : pystr) (e : element) : option news :=
  match el_href e with
  | Some href =>
      if negb (str_eqb href []) && contains (lit "/ru/news/view/") href then
        let full_url := if startswith (lit "/") href then base_url ++ href else href in
        let id := if contains (lit "/") href then last_piece (split_on 47 href) else href in
        let news_details := parse_news_page now page in
        let text := get_text_stripped e in
        Some {| news_id := id;
                news_url := full_url;
                title := if str_eqb text [] then lit "Без названия" else text;
                isin := nd_isin news_details;
                event_type := nd_event_type news_details;
                payment_amount := nd_payment_amount news_details;
                published_date := nd_published_date news_details |}
      else None
  | None => None
  end.

(** The loop over [news_elements[:10]]; [clock k] is the time at which the
    [k]-th element of the loop is handled. *)
Fixpoint collect_candidates (clock : nat -> datetime) (k : nat) (page : pystr)
    (elements : list element) : list news :=
  match elements with
  | [] => []
  | e :: rest =>
      match candidate_of (clock k) page e with
      | Some n => n :: collect_candidates clock (S k) page rest
      | None => collect_candidates clock (S k) page rest
      end
  end.

(** The [try] block of [get_recent_news]. *)
Definition get_recent_news_try (clock : nat -> datetime) (outcome : fetch_outcome)
  : result (list news) :=
  match outcome with
  | Failed f => Raise (RequestException f)
  | Responded status_code text =>
      if bool_decide (status_code ≠ 200%Z) then Ok []
      else
        let soup := html_parser text in
        let news_elements := find_news_elements soup in
        Ok (collect_candidates clock 0 text (take 10 news_elements))
  end.

(** [get_recent_news]: the [except Exception] handler logs and returns [[]]. *)
Definition get_recent_news (clock : nat -> datetime) (outcome : fetch_outcome)
  : list news :=
  match get_recent_news_try clock outcome with
  | Ok news_links => news_links
  | Raise _ => []
  end.

(** The loop of [check_new_news] over [recent_news], threading the
    database and the list [new_news]. *)
Fixpoint check_loop (recent_news : list news) (db : database) (new_news : list news)
  : database * list news :=
  match recent_news with
  | [] => (db, new_news)
  | n :: rest =>
      if negb (is_news_tracked (news_id n) db) then
        let '(db', saved) := save_news n db in
        if saved then check_loop rest db' (new_news ++ [n])
        else check_loop rest db' new_news
      else check_loop rest db new_news
  end.

(** [check_new_news] *)
Definition check_new_news (clock : nat -> datetime) (outcome : fetch_outcome)
    (db : database) : database * list news :=
  check_loop (get_recent_news clock outcome) db [].

(** *** Handlers *)

(** [news.get('isin') in user_isins]: list membership by [==], where the
    list holds strings and the value is a string or [None]. *)
Definition isin_in (i : option pystr) (user_isins : list pystr) : bool :=
  existsb (fun code => bool_decide (i = Some code)) user_isins.

(** [[news for news in new_news if news.get('isin') in user_isins]] *)
Definition relevant_news (user_isins : list pystr) (new_news : list news) : list news :=
  filter (fun n => isin_in (isin n) user_isins) new_news.

(** [add_isin] ([/add]): [args] is [context.args]. *)
Definition add_isin (args : list pystr) (user_id : Z) (db : database)
  : database * add_reply :=
  match args with
  | [] => (db, ReplyUsage)
  | arg :: _ =>
      let isin_code := strip (upper arg) in
      if negb (match_isin_full isin_code) then (db, ReplyInvalidFormat)
      else
        let '(db', added) := add_isin_tracking isin_code user_id db in
        (db', if added then ReplyAdded isin_code else ReplyAlreadyTracked isin_code)
  end.

(** [manual_check] ([/check]): the events whose message is sent back to the
    user, in the order they are sent. *)
Definition manual_check (clock : nat -> datetime) (outcome : fetch_outcome)
    (user_id : Z) (db : database) : result (database * list news) :=
  match get_user_isins user_id db with
  | Raise e => Raise e
  | Ok [] => Ok (db, [])
  | Ok codes =>
      let '(db', new_news) := check_new_news clock outcome db in
      Ok (db', relevant_news codes new_news)
  end.

(** [SELECT DISTINCT user_id FROM user_isins]. The order is the engine's
    (SQLite answers in ascending order); the statements below do not depend
    on the order of the users' turns. *)
Definition distinct_users (rows : list (Z * pystr)) : list Z :=
  remove_dups (map fst rows).

(** The messages of one user in [scheduled_news_check]. *)
Definition user_deliveries (db : database) (new_news : list news) (user_id : Z)
  : list (Z * news) :=
  match get_user_isins user_id db with
  | Ok codes => map (pair user_id) (relevant_news codes new_news)
  | Raise _ => []
  end.

(** The notification loop of [scheduled_news_check], entered when
    [new_news] is not empty: the pairs (chat, event) for which
    [send_message] is called, in call order. A failing query is caught by
    the outer handler and ends the check. *)
Definition broadcast (db : database) (new_news : list news) : list (Z * news) :=
  match new_news with
  | [] => []
  | _ :: _ =>
      match user_isins db with
      | None => []
      | Some rows => concat (map (user_deliveries db new_news) (distinct_users rows))
      end
  end.

(** [scheduled_news_check] *)
Definition scheduled_news_check (clock : nat -> datetime) (outcome : fetch_outcome)
    (db : database) : database * list (Z * news) :=
  let '(db', new_news) := check_new_news clock outcome db in
  (db', broadcast db' new_news).

(** *** The other handlers *)

(** The truth value of a string: false for the empty one. *)
Definition truthy (s : pystr) : bool := negb (str_eqb s []).

(** [sep.join(l)] *)
Fixpoint str_join (sep : pystr) (l : list pystr) : pystr :=
  match l with
  | [] => []
  | s :: l' =>
      match l' with
      | [] => s
      | _ :: _ => s ++ sep ++ str_join sep l'
      end
  end.

(** [format_news_message]: the parts are appended in this order, each
    optional part when its field is neither [None] nor empty. The line
    feed is code point 10. *)
Definition format_news_message (n : news) : pystr :=
  lit "👔 **НОВОЕ СОБЫТИЕ**" ++ [10; 10]
  ++ match isin n with
     | Some i => if truthy i then lit "`" ++ i ++ lit "`" ++ [10; 10] else []
     | None => []
     end
  ++ (if truthy (published_date n)
      then lit "🗓 *" ++ published_date n ++ lit "*" ++ [10] else [])
  ++ (if truthy (event_type n)
      then lit "📋 *" ++ event_type n ++ lit "*" ++ [10; 10] else [])
  ++ lit "*" ++ title n ++ lit "*" ++ [10]
  ++ match payment_amount n with
     | Some p => if truthy p then [10] ++ lit "💰 *Размер выплаты:* " ++ p else []
     | None => []
     end
  ++ (if truthy (news_url n)
      then [10; 10] ++ lit "🔗 [Подробнее](" ++ news_url n ++ lit ")" else []).

(** [list_isins] ([/list]): the text of the answer. The query of
    [get_user_isins] is not guarded, so its exception leaves the handler. *)
Definition list_isins (user_id : Z) (db : database) : result pystr :=
  match get_user_isins user_id db with
  | Raise e => Raise e
  | Ok [] => Ok (lit "📭 У вас нет отслеживаемых ISIN кодов")
  | Ok codes =>
      Ok (lit "📋 **Ваши ISIN коды:**" ++ [10; 10]
          ++ str_join [10] (map (fun isin => lit "• `" ++ isin ++ lit "`") codes))
  end.

(** One item of the [/last] answer: the title cut at 50 characters. *)
Definition last_news_entry (n : news) : pystr :=
  lit "• " ++ take 50 (title n) ++ lit "..." ++ [10]
  ++ match isin n with
     | Some i => if truthy i then lit "  ISIN: `" ++ i ++ lit "`" ++ [10] else []
     | None => []
     end
  ++ [10].

(** [show_last_news] ([/last]): the text of the answer; the handler reads
    the site and not the database. *)
Definition show_last_news (clock : nat -> datetime) (outcome : fetch_outcome) : pystr :=
  match take 5 (get_recent_news clock outcome) with
  | [] => lit "❌ Не удалось получить новости"
  | recent_news =>
      lit "📰 **Последние новости:**" ++ [10; 10]
      ++ concat (map last_news_entry recent_news)
  end.

(** *** The bot at work *)

(** What reaches the bot: a command of a user or the job of the scheduler.
    [/check], [/last] and the job read the clock and the site. *)
Inductive update :=
  | CmdStart
  | CmdAdd (args : list pystr) (user_id : Z)
  | CmdList (user_id : Z)
  | CmdCheck (user_id : Z) (clock : nat -> datetime) (outcome : fetch_outcome)
  | CmdLast (clock : nat -> datetime) (outcome : fetch_outcome)
  | JobCheck (clock : nat -> datetime) (outcome : fetch_outcome).

(** The effect of one update, handled to its end: the database afterwards
    and the events that were sent, each with the user it was sent for (the
    subscriber of the job, the requester of [/check]). [/start], [/list] and
    [/last] write nothing; an exception that leaves [/check] is raised
    before anything is written. *)
Definition dispatch (u : update) (db : database) : database * list (Z * news) :=
  match u with
  | CmdAdd args user_id => (fst (add_isin args user_id db), [])
  | CmdCheck user_id clock outcome =>
      match manual_check clock outcome user_id db with
      | Ok (db', sent) => (db', map (pair user_id) sent)
      | Raise _ => (db, [])
      end
  | JobCheck clock outcome => scheduled_news_check clock outcome db
  | CmdStart | CmdList _ | CmdLast _ _ => (db, [])
  end.

(** Updates handled one after the other. *)
Fixpoint run (updates : list update) (db : database) : database * list (Z * news) :=
  match updates with
  | [] => (db, [])
  | u :: rest =>
      let '(db1, sent1) := dispatch u db in
      let '(db2, sent2) := run rest db1 in
      (db2, sent1 ++ sent2)
  end.

(** ** Notions used by the statements *)

(** The identifiers held by the ledger, and its uniqueness invariant (the
    [UNIQUE] constraint of [tracked_news.news_id]). *)
Definition ledger_ids (db : database) : list pystr := map news_id (tracked_news db).
Definition ledger_unique (db : database) : Prop := NoDup (ledger_ids db).

(** The rows of [user_isins] (none while the table is missing), and the
    invariant of [UNIQUE(user_id, isin)]. *)
Definition subscriptions (db : database) : list (Z * pystr) := default [] (user_isins db).
Definition subscriptions_unique (db : database) : Prop := NoDup (subscriptions db).




(** The candidates with an identifier not in [seen], each identifier once,
    at its first occurrence. *)
Fixpoint first_new (seen : list pystr) (candidates : list news) : list news :=
  match candidates with
  | [] => []
  | n :: rest =>
      if bool_decide (news_id n ∈ seen) then first_new seen rest
      else n :: first_new (news_id n :: seen) rest
  end.

(** [RU] followed by exactly ten characters out of [0-9] and [A-Z]: what
    the [/add] handler checks on the normalised code. *)
Definition isin_shape (code : pystr) : bool :=
  (length code =? 12)%nat && startswith (lit "RU") code
  && forallb is_isin_char (drop 2 code).

(** The pattern in the words of the specification: [RU] followed by
    exactly ten alphanumeric characters. *)
Definition is_alphanumeric (c : N) : bool :=
  is_ascii_digit c || is_ascii_upper c || is_ascii_lower c.

Definition spec_isin_pattern (code : pystr) : bool :=
  (length code =? 12)%nat && startswith (lit "RU") code
  && forallb is_alphanumeric (drop 2 code).

(** The shape [DD.MM.YYYY]: ten characters, digits but for the two dots. *)
Definition is_dd_mm_yyyy (s : pystr) : bool :=
  match s with
  | [d1; d2; p1; m1; m2; p2; y1; y2; y3; y4] =>
      forallb is_ascii_digit [d1; d2; m1; m2; y1; y2; y3; y4]
      && (p1 =? 46) && (p2 =? 46)
  | _ => false
  end.

(** The number that a string of decimal digits writes. *)
Definition read_number (s : pystr) : N := fold_left (fun acc c => 10 * acc + (c - 48)) s 0.

(** [s] writes the day, the month and the year of [now] as [DD.MM.YYYY]. *)
Definition writes_date (s : pystr) (now : datetime) : Prop :=
  exists dd mm yyyy,
    s = dd ++ lit "." ++ mm ++ lit "." ++ yyyy
    /\ length dd = 2%nat /\ length mm = 2%nat /\ length yyyy = 4%nat
    /\ read_number dd = dt_day now
    /\ read_number mm = dt_month now
    /\ read_number yyyy = dt_year now.

(** The capital of an ASCII letter; other characters stay. *)
Definition capital (c : N) : N := if (97 <=? c) && (c <=? 122) then c - 32 else c.
Definition all_ascii (s : pystr) : bool := forallb (fun c => c <? 128) s.

(** A clock reading of the four-digit era. *)
Definition plausible_date (now : datetime) : Prop :=
  1000 <= dt_year now <= 9999 /\ 1 <= dt_month now <= 12 /\ 1 <= dt_day now <= 31.

(** A fetch that failed: an exception of the HTTP client (network error,
    timeout) or a status other than 200. *)
Definition fetch_failed (outcome : fetch_outcome) : Prop :=
  match outcome with
  | Failed _ => True
  | Responded status_code _ => status_code ≠ 200%Z
  end.

(** The event carries a code and the subscriber tracks that code. *)
Definition tracks (rows : list (Z * pystr)) (user_id : Z) (e : news) : bool :=
  match isin e with
  | Some code => bool_decide ((user_id, code) ∈ rows)
  | None => false
  end.

(** [id] is what follows the last slash of [href]. *)
Definition is_last_segment (href id : pystr) : Prop :=
  (exists prefix, href = prefix ++ 47 :: id) /\ 47 ∉ id.

(** The address the program gives an item: the base URL in front of an
    [href] that begins with a slash, the [href] as it stands otherwise. *)
Definition item_url (href : pystr) : pystr :=
  if startswith (lit "/") href then base_url ++ href else href.

(** An [href] without a scheme, and an address under the site's base. *)
Definition is_relative (href : pystr) : bool := negb (contains (lit "://") href).
Definition under_base (url : pystr) : bool := startswith base_url url.

(** [m] occurs in [s]. *)
Definition occurs_in (m s : pystr) : Prop := exists pre post, s = pre ++ m ++ post.

(** A database as the bot keeps it: no identifier twice in the ledger, no
    pair twice among the subscriptions, and every subscribed code of the
    ISIN shape. *)
Definition database_ok (db : database) : Prop :=
  ledger_unique db
  /\ subscriptions_unique db
  /\ Forall (fun row => isin_shape (snd row) = true) (subscriptions db).

(** Whom an event was sent for, and which event. *)
Definition notification_key (d : Z * news) : Z * pystr := (fst d, news_id (snd d)).

(** A string without white space at either end. *)
Definition trimmed (s : pystr) : Prop := strip s = s.

(** ** The ledger *)

Lemma str_eqb_eq (a b : pystr) : str_eqb a b = true <-> a = b.
Proof. unfold str_eqb. apply bool_decide_eq_true. Qed.

Lemma tracked_iff (id : pystr) (db : database) :
  existsb (fun row => str_eqb (news_id row) id) (tracked_news db) = true
  <-> id ∈ ledger_ids db.
Proof.
  unfold ledger_ids. rewrite existsb_exists, list_elem_of_In, in_map_iff.
  split.
  - intros (row & Hin & Heq). apply str_eqb_eq in Heq. eauto.
  - intros (row & Heq & Hin). exists row. split; [done|]. by apply str_eqb_eq.
Qed.

Lemma is_news_tracked_iff (id : pystr) (db : database) :
  is_news_tracked id db = true <-> id ∈ ledger_ids db.
Proof. apply tracked_iff. Qed.


Lemma save_news_fresh (n : news) (db : database) :
  news_id n ∉ ledger_ids db ->
  save_news n db =
    ({| tracked_news := tracked_news db ++ [n]; user_isins := user_isins db |}, true).
Proof.
  intros Hnin. unfold save_news.
  destruct (existsb _ _) eqn:E; [|done].
  apply tracked_iff in E. contradiction.
Qed.













(** ** The ingestion cycle *)

Lemma first_new_ext (seen1 seen2 : list pystr) (candidates : list news) :
  (forall id, id ∈ seen1 <-> id ∈ seen2) ->
  first_new seen1 candidates = first_new seen2 candidates.
Proof.
  revert seen1 seen2. induction candidates as [|n rest IH]; intros s1 s2 Heq; [done|].
  simpl. rewrite (bool_decide_ext _ _ (Heq (news_id n))).
  case_bool_decide; [by apply IH|].
  f_equal. apply IH. intros id. rewrite !elem_of_cons, Heq. done.
Qed.

(** Candidates with fresh, pairwise distinct identifiers are all new. *)
Lemma first_new_all (seen : list pystr) (candidates : list news) :
  NoDup (map news_id candidates) ->
  (forall n, n ∈ candidates -> news_id n ∉ seen) ->
  first_new seen candidates = candidates.
Proof.
  revert seen. induction candidates as [|n rest IH]; intros seen Hnd Hfresh; [done|].
  simpl in *. apply NoDup_cons in Hnd as [Hn Hnd].
  rewrite bool_decide_eq_false_2 by (apply Hfresh; left).
  f_equal. apply IH; [done|].
  intros m Hm Hin. apply elem_of_cons in Hin as [Heq|Hin].
  - apply Hn. rewrite <- Heq. apply list_elem_of_In, in_map. by apply list_elem_of_In.
  - apply (Hfresh m); [by right|done].
Qed.

(** What [check_loop] returns and what it leaves in the ledger. *)
Lemma check_loop_new (recent : list news) (db : database) (acc : list news) :
  snd (check_loop recent db acc) = acc ++ first_new (ledger_ids db) recent.
Proof.
  revert db acc. induction recent as [|n rest IH]; intros db acc.
  - simpl. by rewrite app_nil_r.
  - simpl. destruct (is_news_tracked (news_id n) db) eqn:E; simpl.
    + apply is_news_tracked_iff in E. rewrite bool_decide_eq_true_2 by done.
      apply IH.
    + assert (Hn : news_id n ∉ ledger_ids db).
      { intros Hin. apply is_news_tracked_iff in Hin. congruence. }
      rewrite bool_decide_eq_false_2 by done.
      rewrite save_news_fresh by done. rewrite IH, <- app_assoc. simpl.
      do 2 f_equal. apply first_new_ext. intros id.
      unfold ledger_ids. simpl. rewrite map_app. simpl.
      rewrite elem_of_app, !elem_of_cons, elem_of_nil. tauto.
Qed.






(** When the candidates carry pairwise distinct identifiers, none of them
    in the ledger, the first cycle returns all of them. *)
Lemma check_new_news_all_new (clock : nat -> datetime) (outcome : fetch_outcome)
    (db : database) :
  NoDup (map news_id (get_recent_news clock outcome)) ->
  (forall n, n ∈ get_recent_news clock outcome -> news_id n ∉ ledger_ids db) ->
  snd (check_new_news clock outcome db) = get_recent_news clock outcome.
Proof.
  intros Hnd Hfresh. unfold check_new_news.
  rewrite check_loop_new. simpl. by apply first_new_all.
Qed.

(** C7. When the fetch fails (the HTTP client raises on a network error or
    a timeout, or the status is not 200), [get_recent_news] returns the
    empty list (an exception raised in its [try] block ends in its
    handler), and the cycle returns the empty list and leaves the database
    as it was. *)
Theorem C7_failed_fetch_changes_nothing (clock : nat -> datetime)
    (outcome : fetch_outcome) (db : database) :
  fetch_failed outcome ->
  get_recent_news clock outcome = []
  /\ check_new_news clock outcome db = (db, [])
  /\ (forall f, outcome = Failed f ->
        get_recent_news_try clock outcome = Raise (RequestException f)).
Proof.
  intros Hfail.
  assert (Hnone : get_recent_news clock outcome = []).
  { unfold get_recent_news, get_recent_news_try.
    destruct outcome as [status_code text|f]; [|done].
    simpl in Hfail. by rewrite bool_decide_eq_true_2. }
  split_and!; [done| |by intros f ->].
  unfold check_new_news. by rewrite Hnone.
Qed.

(** ** The subscription table *)

Lemma add_isin_tracking_rows (isin_code : pystr) (user_id : Z) (db : database) :
  subscriptions (fst (add_isin_tracking isin_code user_id db)) =
    if bool_decide ((user_id, upper isin_code) ∈ subscriptions db)
    then subscriptions db
    else subscriptions db ++ [(user_id, upper isin_code)].
Proof.
  unfold add_isin_tracking, subscriptions. by case_bool_decide.
Qed.

Lemma add_isin_tracking_result (isin_code : pystr) (user_id : Z) (db : database) :
  snd (add_isin_tracking isin_code user_id db) =
    negb (bool_decide ((user_id, upper isin_code) ∈ subscriptions db)).
Proof.
  unfold add_isin_tracking, subscriptions. by case_bool_decide.
Qed.

Lemma add_isin_tracking_creates (isin_code : pystr) (user_id : Z) (db : database) :
  let after := fst (add_isin_tracking isin_code user_id db) in
  user_isins after = Some (subscriptions after)
  /\ tracked_news after = tracked_news db.
Proof.
  unfold add_isin_tracking, subscriptions. by case_bool_decide.
Qed.

Lemma add_isin_tracking_stores (isin_code : pystr) (user_id : Z) (db : database) :
  (user_id, upper isin_code) ∈ subscriptions (fst (add_isin_tracking isin_code user_id db)).
Proof.
  rewrite add_isin_tracking_rows. case_bool_decide; [done|].
  apply elem_of_app. right. by apply list_elem_of_singleton.
Qed.


(** Adding a pair that the existing table holds changes nothing. *)
Lemma add_isin_tracking_again (isin_code : pystr) (user_id : Z) (db : database) :
  user_isins db = Some (subscriptions db) ->
  (user_id, upper isin_code) ∈ subscriptions db ->
  add_isin_tracking isin_code user_id db = (db, false).
Proof.
  intros Htable Hin. unfold add_isin_tracking.
  fold (subscriptions db). rewrite bool_decide_eq_true_2 by done.
  rewrite <- Htable. by destruct db.
Qed.



Lemma listed_codes_cons (user_id : Z) (row : Z * pystr) (rows : list (Z * pystr)) :
  listed_codes user_id (row :: rows) =
    if bool_decide (fst row = user_id) then snd row :: listed_codes user_id rows
    else listed_codes user_id rows.
Proof.
  unfold listed_codes. rewrite filter_cons.
  destruct (decide (bool_decide (fst row = user_id))) as [H|H];
    destruct (bool_decide (fst row = user_id)); simpl in *; done.
Qed.

Lemma listed_codes_elem (user_id : Z) (rows : list (Z * pystr)) (code : pystr) :
  code ∈ listed_codes user_id rows <-> (user_id, code) ∈ rows.
Proof.
  induction rows as [|[u c] rows IH].
  - split; intros H; by apply elem_of_nil in H.
  - rewrite listed_codes_cons. simpl. case_bool_decide as Hu.
    + subst u. rewrite !elem_of_cons, IH. split; intros [H|H]; auto.
      * left. by rewrite H.
      * left. congruence.
    + rewrite IH, elem_of_cons. split; [auto|]. intros [H|H]; [congruence|done].
Qed.



Lemma get_user_isins_listed (user_id : Z) (db : database) :
  user_isins db = Some (subscriptions db) ->
  get_user_isins user_id db = Ok (listed_codes user_id (subscriptions db)).
Proof.
  unfold get_user_isins, subscriptions. intros Htable.
  destruct (user_isins db); [done|discriminate].
Qed.


Lemma upper_ascii (s : pystr) : all_ascii s = true -> upper s = map capital s.
Proof.
  unfold all_ascii, upper. induction s as [|c s IH]; [done|]. simpl.
  intros H. apply andb_true_iff in H as [Hc Hs]. rewrite IH by done.
  unfold upper_char, capital, is_ascii_lower. by rewrite Hc.
Qed.

(** C10, as the code has it. The store-level add operation checks no
    pattern. For an identifier of 64 bits and a string whose upper-case form
    has no surrogate, the pair of the subscriber and the upper-cased string
    (for an ASCII string: the string with [a-z] replaced by [A-Z]) is in the
    table afterwards and is listed for the subscriber, whatever the string,
    and the call returns false only because that pair was stored already.
    For any other identifier or string sqlite3 raises when it binds the
    parameters, and no row is added. *)
Theorem C10_store_add_does_not_validate (isin_code : pystr) (user_id : Z)
    (db : database) :
  let out := add_isin_tracking_call isin_code user_id db in
  (all_ascii isin_code = true -> upper isin_code = map capital isin_code)
  /\ tracked_news (fst out) = tracked_news db
  /\ if fits_int64 user_id && encodable (upper isin_code)
     then
       snd out = Ok (negb (bool_decide ((user_id, upper isin_code) ∈ subscriptions db)))
       /\ (user_id, upper isin_code) ∈ subscriptions (fst out)
       /\ (exists codes, get_user_isins user_id (fst out) = Ok codes
                         /\ upper isin_code ∈ codes)
       /\ subscriptions (fst out) =
            (if bool_decide ((user_id, upper isin_code) ∈ subscriptions db)
             then subscriptions db
             else subscriptions db ++ [(user_id, upper isin_code)])
     else
       snd out = Raise (if fits_int64 user_id then UnicodeEncodeError else OverflowError)
       /\ subscriptions (fst out) = subscriptions db
       /\ user_isins (fst out) = Some (subscriptions db).
Proof.
  intros out. subst out. unfold add_isin_tracking_call.
  split; [apply upper_ascii|].
  destruct (fits_int64 user_id); [|by cbn].
  destruct (encodable (upper isin_code)); [|by cbn].
  cbn [negb andb].
  pose proof (add_isin_tracking_stores isin_code user_id db) as Hin.
  pose proof (add_isin_tracking_rows isin_code user_id db) as Hrows.
  pose proof (add_isin_tracking_result isin_code user_id db) as Hres.
  pose proof (add_isin_tracking_creates isin_code user_id db) as [Htable Hnews].
  destruct (add_isin_tracking isin_code user_id db) as [db1 added].
  cbn [fst snd] in *. split; [done|]. split_and!.
  - by rewrite Hres.
  - done.
  - exists (listed_codes user_id (subscriptions db1)). split.
    + by apply get_user_isins_listed.
    + by apply listed_codes_elem.
  - done.
Qed.

(** ** Normalising and validating a code *)

Lemma lstrip_head (s : pystr) (c : N) (t : pystr) :
  lstrip s = c :: t -> isspace c = false.
Proof.
  induction s as [|a s IH]; simpl; [discriminate|].
  destruct (isspace a) eqn:E; [exact IH|].
  intros [= <- _]. exact E.
Qed.

(** A stripped string does not end in white space. *)
Lemma strip_last (s t : pystr) (c : N) :
  strip s = t ++ [c] -> isspace c = false.
Proof.
  unfold strip, rstrip. intros H. apply (f_equal (@rev N)) in H.
  rewrite rev_involutive, rev_app_distr in H. simpl in H.
  by apply lstrip_head in H.
Qed.

Lemma startswith_RU (s : pystr) :
  startswith (lit "RU") s = true -> exists rest, s = 82 :: 85 :: rest.
Proof.
  change (lit "RU") with [82; 85].
  destruct s as [|a [|b rest]]; cbn [startswith]; intros H;
    [discriminate|by rewrite andb_false_r in H|].
  apply andb_true_iff in H as [Ha H].
  apply andb_true_iff in H as [Hb _].
  apply N.eqb_eq in Ha, Hb. subst. by exists rest.
Qed.

(** On a string that does not end in white space, the anchored pattern of
    the handler accepts exactly the twelve-character shape. *)
Lemma match_isin_full_shape (s : pystr) :
  (forall t c, s = t ++ [c] -> isspace c = false) ->
  match_isin_full s = isin_shape s.
Proof.
  intros Hlast. unfold match_isin_full, match_isin_prefix, isin_shape.
  destruct (startswith (lit "RU") s) eqn:ERU;
    [|by rewrite andb_false_r].
  rewrite andb_true_r.
  assert (Hlen : length (take 10 (drop 2 s)) = Nat.min 10 (length s - 2)).
  { by rewrite length_take, length_drop. }
  destruct (Nat.eqb_spec (length s) 12) as [H12|H12].
  - rewrite (take_ge (drop 2 s)) by (rewrite length_drop; lia).
    rewrite length_drop, H12. simpl.
    destruct (forallb is_isin_char (drop 2 s)); [|done].
    rewrite drop_ge by lia. done.
  - simpl. destruct (Nat.eqb_spec (length (take 10 (drop 2 s))) 10) as [H10|H10];
      [|done].
    simpl. destruct (forallb is_isin_char (take 10 (drop 2 s))); [|done].
    assert (Hlong : (12 < length s)%nat) by lia.
    destruct (drop 12 s) as [|c [|c' rest]] eqn:Hdrop.
    + apply (f_equal length) in Hdrop. rewrite length_drop in Hdrop.
      simpl in Hdrop. lia.
    + pose proof (Hlast (take 12 s) c) as Hc.
      rewrite <- Hdrop, take_drop in Hc. specialize (Hc eq_refl).
      unfold str_eqb. rewrite bool_decide_eq_false_2 by done.
      rewrite bool_decide_eq_false_2; [done|].
      intros [= ->]. discriminate Hc.
    + unfold str_eqb. by rewrite !bool_decide_eq_false_2.
Qed.

Lemma upper_char_isin (c : N) : is_isin_char c = true -> upper_char c = [c].
Proof.
  unfold is_isin_char, is_ascii_digit, is_ascii_upper, upper_char, is_ascii_lower.
  intros H.
  assert (Hc : c <= 90).
  { apply orb_true_iff in H as [H|H]; apply andb_true_iff in H as [_ H];
      apply N.leb_le in H; lia. }
  destruct (N.ltb_spec c 128); [|lia].
  destruct (N.leb_spec 97 c); [lia|done].
Qed.

Lemma upper_isin_chars (s : pystr) :
  forallb is_isin_char s = true -> upper s = s.
Proof.
  induction s as [|c s IH]; [done|]. simpl. intros H.
  apply andb_true_iff in H as [Hc Hs].
  unfold upper in *. simpl. rewrite upper_char_isin by done.
  simpl. f_equal. by apply IH.
Qed.

Lemma isin_shape_chars (s : pystr) :
  isin_shape s = true -> forallb is_isin_char s = true.
Proof.
  unfold isin_shape. intros H.
  apply andb_true_iff in H as [H Hbody]. apply andb_true_iff in H as [_ HRU].
  apply startswith_RU in HRU as [rest ->].
  change (drop 2 (82 :: 85 :: rest)) with rest in Hbody.
  change (forallb is_isin_char (82 :: 85 :: rest))
    with (forallb is_isin_char rest).
  exact Hbody.
Qed.

(** C5, as the code has it. The [/add] handler upper-cases and strips the
    code before it checks it. If the normalised code is not [RU] followed by
    exactly ten characters out of [0-9A-Z], the handler answers with the
    format error and the database is unchanged. Otherwise the pair of the
    subscriber and the normalised code, which is its own upper-case form, is
    in the table afterwards, newly appended unless it was there. *)
Theorem C5_add_checks_normalised_code (arg : pystr) (rest : list pystr)
    (user_id : Z) (db : database) :
  let isin_code := strip (upper arg) in
  let out := add_isin (arg :: rest) user_id db in
  if isin_shape isin_code
  then upper isin_code = isin_code
       /\ (user_id, isin_code) ∈ subscriptions (fst out)
       /\ (if bool_decide ((user_id, isin_code) ∈ subscriptions db)
           then subscriptions (fst out) = subscriptions db
                /\ snd out = ReplyAlreadyTracked isin_code
           else subscriptions (fst out) = subscriptions db ++ [(user_id, isin_code)]
                /\ snd out = ReplyAdded isin_code)
  else out = (db, ReplyInvalidFormat).
Proof.
  intros isin_code out. subst out. unfold add_isin. fold isin_code.
  rewrite match_isin_full_shape by (intros t c; apply strip_last).
  destruct (isin_shape isin_code) eqn:Hshape; [|done]. simpl.
  assert (Hup : upper isin_code = isin_code).
  { by apply upper_isin_chars, isin_shape_chars. }
  pose proof (add_isin_tracking_stores isin_code user_id db) as Hin.
  pose proof (add_isin_tracking_rows isin_code user_id db) as Hrows.
  pose proof (add_isin_tracking_result isin_code user_id db) as Hres.
  rewrite Hup in Hin, Hrows, Hres.
  destruct (add_isin_tracking isin_code user_id db) as [db1 added].
  simpl in *. split_and!; [done..|].
  rewrite Hrows, Hres. by case_bool_decide.
Qed.

(** ** Routing new events to subscribers *)

Lemma isin_in_tracks (rows : list (Z * pystr)) (user_id : Z) (e : news) :
  isin_in (isin e) (listed_codes user_id rows) = tracks rows user_id e.
Proof.
  unfold isin_in, tracks. apply eq_true_iff_eq.
  rewrite existsb_exists. destruct (isin e) as [code|].
  - rewrite bool_decide_eq_true, <- listed_codes_elem. split.
    + intros (c & Hc & Heq). apply bool_decide_eq_true in Heq.
      injection Heq as ->. by apply list_elem_of_In.
    + intros Hin. exists code. split; [by apply list_elem_of_In|].
      by apply bool_decide_eq_true.
  - split; [|discriminate]. intros (c & _ & Heq).
    by apply bool_decide_eq_true in Heq.
Qed.

Lemma relevant_news_tracks (rows : list (Z * pystr)) (user_id : Z)
    (new_news : list news) :
  relevant_news (listed_codes user_id rows) new_news
  = filter (fun e => tracks rows user_id e) new_news.
Proof.
  unfold relevant_news. apply list_filter_iff. intros e.
  by rewrite isin_in_tracks.
Qed.

Lemma filter_keeps_all {A} (P : A -> Prop) `{forall x, Decision (P x)} (l : list A) :
  (forall x, x ∈ l -> P x) -> filter P l = l.
Proof.
  induction l as [|x l IH]; intros Hall; [done|].
  rewrite filter_cons_True by (apply Hall; left).
  f_equal. apply IH. intros y Hy. apply Hall. by right.
Qed.

Lemma filter_keeps_none {A} (P : A -> Prop) `{forall x, Decision (P x)} (l : list A) :
  (forall x, x ∈ l -> ~ P x) -> filter P l = [].
Proof.
  induction l as [|x l IH]; intros Hnone; [done|].
  rewrite filter_cons_False by (apply Hnone; left).
  apply IH. intros y Hy. apply Hnone. by right.
Qed.

(** The messages of the loop that go to one chat: those of that user's
    turn, when the user has a turn. *)
Lemma filter_concat_turns (f : Z -> list (Z * news)) (users : list Z) (user_id : Z) :
  NoDup users ->
  (forall v d, d ∈ f v -> fst d = v) ->
  filter (fun d => fst d = user_id) (concat (map f users))
  = if bool_decide (user_id ∈ users) then f user_id else [].
Proof.
  intros Hnd Hf. induction users as [|v users IH]; [done|].
  apply NoDup_cons in Hnd as [Hv Hnd]. simpl. rewrite filter_app, IH by done.
  destruct (decide (v = user_id)) as [->|Hne].
  - rewrite filter_keeps_all by (intros d Hd; by apply Hf).
    rewrite (bool_decide_eq_false_2 _ Hv).
    rewrite bool_decide_eq_true_2 by left. by rewrite app_nil_r.
  - rewrite filter_keeps_none
      by (intros d Hd Heq; apply Hne; rewrite <- Heq; symmetry; by apply Hf).
    simpl. apply (f_equal (fun b : bool => if b then f user_id else [])).
    apply bool_decide_ext. rewrite elem_of_cons. split; [auto|].
    intros [Heq|Hin]; [congruence|done].
Qed.

Lemma distinct_users_elem (rows : list (Z * pystr)) (user_id : Z) :
  user_id ∈ distinct_users rows <-> exists code, (user_id, code) ∈ rows.
Proof.
  unfold distinct_users. rewrite elem_of_remove_dups, list_elem_of_In, in_map_iff.
  split.
  - intros ([u c] & Heq & Hin). simpl in Heq. subst u. exists c.
    by apply list_elem_of_In.
  - intros (c & Hin). exists (user_id, c). split; [done|]. by apply list_elem_of_In.
Qed.

Lemma tracks_absent (rows : list (Z * pystr)) (user_id : Z) (e : news) :
  (forall code, (user_id, code) ∉ rows) -> tracks rows user_id e = false.
Proof.
  intros Hnone. unfold tracks. destruct (isin e) as [code|]; [|done].
  by apply bool_decide_eq_false_2.
Qed.

Lemma broadcast_to_user (db : database) (new_news : list news) (user_id : Z) :
  filter (fun d => fst d = user_id) (broadcast db new_news)
  = map (pair user_id)
        (filter (fun e => tracks (subscriptions db) user_id e) new_news).
Proof.
  destruct new_news as [|e0 news_rest]; [done|].
  unfold broadcast. cbv beta iota.
  destruct (user_isins db) as [rows|] eqn:Htable.
  - assert (subscriptions db = rows) as ->.
    { unfold subscriptions. by rewrite Htable. }
    rewrite filter_concat_turns.
    + unfold user_deliveries, get_user_isins. rewrite Htable.
      case_bool_decide as Hturn.
      * by rewrite relevant_news_tracks.
      * rewrite (filter_keeps_none (fun e => tracks rows user_id e)); [done|].
        intros e _ Ht. rewrite tracks_absent in Ht; [done|].
        intros code Hin. apply Hturn, distinct_users_elem. by exists code.
    + apply NoDup_remove_dups.
    + intros v d. unfold user_deliveries, get_user_isins. rewrite Htable.
      rewrite list_elem_of_In, in_map_iff. by intros (e & <- & _).
  - assert (subscriptions db = []) as ->.
    { unfold subscriptions. by rewrite Htable. }
    rewrite (filter_keeps_none (fun e => tracks [] user_id e)); [done|].
    intros e _ Ht. rewrite tracks_absent in Ht; [done|].
    intros code Hin. by apply elem_of_nil in Hin.
Qed.

(** C4. For every subscriber and every list of new events, the
    notification loop sends an event to the subscriber if and only if the
    event carries an ISIN and the subscriber tracks that ISIN; an event
    without ISIN goes to nobody; what one subscriber receives is the list of
    new events filtered, in its order; and [/check] filters by the same
    test. *)
Theorem C4_routing_by_tracked_isin (db : database) (new_news : list news)
    (user_id : Z) :
  let rows := subscriptions db in
  let sent := broadcast db new_news in
  (forall e, (user_id, e) ∈ sent <-> e ∈ new_news /\ tracks rows user_id e = true)
  /\ (forall e, isin e = None -> (user_id, e) ∉ sent)
  /\ filter (fun d => fst d = user_id) sent
     = map (pair user_id) (filter (fun e => tracks rows user_id e) new_news)
  /\ relevant_news (listed_codes user_id rows) new_news
     = filter (fun e => tracks rows user_id e) new_news.
Proof.
  intros rows sent.
  assert (Hiff : forall e,
    (user_id, e) ∈ sent <-> e ∈ new_news /\ tracks rows user_id e = true).
  { intros e.
    transitivity ((user_id, e) ∈ filter (fun d => fst d = user_id) sent).
    - rewrite list_elem_of_filter. simpl. tauto.
    - subst sent rows. rewrite broadcast_to_user.
      rewrite list_elem_of_In, in_map_iff. split.
      + intros (e' & [= ->] & Hin). apply list_elem_of_In in Hin.
        apply list_elem_of_filter in Hin as [Ht Hin].
        split; [done|]. by apply Is_true_true.
      + intros [Hin Ht]. exists e. split; [done|].
        apply list_elem_of_In, list_elem_of_filter. split; [|done].
        by apply Is_true_true. }
  split_and!.
  - exact Hiff.
  - intros e Hnone Hin. apply Hiff in Hin as [_ Ht].
    unfold tracks in Ht. by rewrite Hnone in Ht.
  - apply broadcast_to_user.
  - apply relevant_news_tracks.
Qed.

(** The two handlers that route: what each sends. *)
Lemma scheduled_news_check_sends (clock : nat -> datetime) (outcome : fetch_outcome)
    (db : database) :
  let cycle := check_new_news clock outcome db in
  scheduled_news_check clock outcome db = (fst cycle, broadcast (fst cycle) (snd cycle)).
Proof.
  unfold scheduled_news_check. by destruct (check_new_news clock outcome db).
Qed.

Lemma manual_check_sends (clock : nat -> datetime) (outcome : fetch_outcome)
    (user_id : Z) (db : database) (rows : list (Z * pystr)) :
  user_isins db = Some rows ->
  let cycle := check_new_news clock outcome db in
  manual_check clock outcome user_id db =
    match listed_codes user_id rows with
    | [] => Ok (db, [])
    | _ :: _ => Ok (fst cycle, filter (fun e => tracks rows user_id e) (snd cycle))
    end.
Proof.
  intros Htable cycle. subst cycle. unfold manual_check, get_user_isins.
  rewrite Htable. destruct (listed_codes user_id rows) as [|c codes] eqn:Hcodes; [done|].
  destruct (check_new_news clock outcome db) as [db1 new_news]. simpl.
  by rewrite <- Hcodes, relevant_news_tracks.
Qed.

(** ** The candidates of an index page *)

Lemma contains_first_char (c : N) (p s : pystr) :
  contains (c :: p) s = true -> contains [c] s = true /\ c ∈ s.
Proof.
  induction s as [|d s IH]; [done|].
  cbn [contains startswith]. intros H.
  apply orb_true_iff in H as [H|H].
  - apply andb_true_iff in H as [Hcd _]. rewrite Hcd. simpl.
    apply N.eqb_eq in Hcd. subst d. split; [done|left].
  - apply IH in H as [H1 H2]. rewrite H1, orb_true_r. split; [done|by right].
Qed.

Lemma split_on_pieces (sep : N) (s : pystr) :
  match split_on sep s with
  | [] => False
  | [piece] => piece = s /\ sep ∉ s
  | pieces => exists prefix, s = prefix ++ sep :: last_piece pieces
  end.
Proof.
  unfold last_piece. induction s as [|c s IH]; simpl.
  - split; [done|]. apply not_elem_of_nil.
  - destruct (N.eqb_spec c sep) as [->|Hne].
    + destruct (split_on sep s) as [|p1 [|p2 ps]]; [done| |].
      * destruct IH as [-> _]. by exists [].
      * destruct IH as [prefix ->]. by exists (sep :: prefix).
    + destruct (split_on sep s) as [|p1 [|p2 ps]]; [done| |].
      * destruct IH as [-> Hnin]. split; [done|].
        apply not_elem_of_cons. split; [congruence|done].
      * destruct IH as [prefix ->]. by exists (c :: prefix).
Qed.

Lemma split_on_last_clean (sep : N) (s : pystr) :
  sep ∉ last_piece (split_on sep s).
Proof.
  unfold last_piece. induction s as [|c s IH]; simpl.
  - apply not_elem_of_nil.
  - pose proof (split_on_pieces sep s) as Hne.
    destruct (N.eqb_spec c sep) as [->|Hc].
    + destruct (split_on sep s) as [|p1 ps]; [done|exact IH].
    + destruct (split_on sep s) as [|p1 [|p2 ps]]; [done| |exact IH].
      simpl in *. apply not_elem_of_cons. split; [congruence|done].
Qed.

(** After a slash-containing [href], [split('/')[-1]] is its last segment. *)
Lemma split_last_segment (href : pystr) :
  47 ∈ href -> is_last_segment href (last_piece (split_on 47 href)).
Proof.
  intros Hin. split; [|apply split_on_last_clean].
  pose proof (split_on_pieces 47 href) as H.
  destruct (split_on 47 href) as [|p1 [|p2 ps]]; [done| |exact H].
  destruct H as [_ Hnin]. contradiction.
Qed.

(** What [candidate_of] makes of an anchor that [find_all] selected. *)
Lemma candidate_of_news_link (now : datetime) (page : pystr) (e : element)
    (href : pystr) :
  el_href e = Some href ->
  contains (lit "/ru/news/view/") href = true ->
  exists n, candidate_of now page e = Some n
            /\ is_last_segment href (news_id n)
            /\ news_url n = item_url href
            /\ isin n = nd_isin (parse_news_page now page)
            /\ event_type n = nd_event_type (parse_news_page now page)
            /\ payment_amount n = nd_payment_amount (parse_news_page now page)
            /\ published_date n = nd_published_date (parse_news_page now page).
Proof.
  intros Hhref Hpat. unfold candidate_of. rewrite Hhref, Hpat.
  assert (Hne : str_eqb href [] = false).
  { destruct href; [discriminate Hpat|]. unfold str_eqb.
    by apply bool_decide_eq_false_2. }
  rewrite Hne. cbn [negb andb].
  change (lit "/ru/news/view/") with (47 :: lit "ru/news/view/") in Hpat.
  apply contains_first_char in Hpat as [Hslash Hin].
  change (lit "/") with [47]. rewrite Hslash.
  eexists. split; [reflexivity|]. cbn [news_id news_url isin event_type
    payment_amount published_date].
  split_and!; try done. by apply split_last_segment.
Qed.

Lemma find_news_elements_links (soup : list element) (e : element) :
  e ∈ find_news_elements soup ->
  exists href, el_href e = Some href
               /\ contains (lit "/ru/news/view/") href = true.
Proof.
  unfold find_news_elements. intros Hin.
  apply list_elem_of_filter in Hin as [Hp _].
  apply Is_true_true, andb_true_iff in Hp as [_ Hp].
  unfold href_matches in Hp. destruct (el_href e) as [href|]; [|done].
  by exists href.
Qed.

(** The loop turns news links into candidates one for one, in order. *)
Lemma collect_candidates_links (clock : nat -> datetime) (k : nat) (page : pystr)
    (elements : list element) :
  (forall e, e ∈ elements ->
     exists href, el_href e = Some href
                  /\ contains (lit "/ru/news/view/") href = true) ->
  Forall2 (fun e n =>
             exists href i,
               el_href e = Some href
               /\ contains (lit "/ru/news/view/") href = true
               /\ candidate_of (clock i) page e = Some n
               /\ is_last_segment href (news_id n)
               /\ news_url n = item_url href)
          elements (collect_candidates clock k page elements).
Proof.
  revert k. induction elements as [|e rest IH]; intros k Hlinks; [constructor|].
  destruct (Hlinks e) as (href & Hhref & Hpat); [left|].
  destruct (candidate_of_news_link (clock k) page e href Hhref Hpat)
    as (n & Hn & Hid & Hurl & _).
  simpl. rewrite Hn. constructor.
  - by exists href, k.
  - apply IH. intros e' He'. apply Hlinks. by right.
Qed.

(** C9, as the code has it. From a fetched index page the fetcher makes
    one candidate for each of the first ten anchors whose [href] contains
    the item path, in page order, so at most ten. The [news_id] of a
    candidate is what follows the last slash of its [href]; its [news_url]
    is the base URL followed by the [href] when the [href] begins with a
    slash, and the [href] unchanged otherwise. *)
Theorem C9_candidates_of_index_page (clock : nat -> datetime) (text : pystr) :
  let news_elements := find_news_elements (html_parser text) in
  let candidates := get_recent_news clock (Responded 200 text) in
  (length candidates <= 10)%nat
  /\ Forall2 (fun e n =>
                exists href,
                  el_href e = Some href
                  /\ contains (lit "/ru/news/view/") href = true
                  /\ is_last_segment href (news_id n)
                  /\ news_url n = item_url href)
             (take 10 news_elements) candidates.
Proof.
  intros news_elements candidates.
  assert (Hlinks : forall e, e ∈ take 10 news_elements ->
            exists href, el_href e = Some href
                         /\ contains (lit "/ru/news/view/") href = true).
  { intros e He. apply (find_news_elements_links (html_parser text)).
    apply (subseteq_take 10 news_elements e He). }
  assert (Hall : Forall2 (fun e n =>
                exists href,
                  el_href e = Some href
                  /\ contains (lit "/ru/news/view/") href = true
                  /\ is_last_segment href (news_id n)
                  /\ news_url n = item_url href)
             (take 10 news_elements) candidates).
  { subst candidates. unfold get_recent_news, get_recent_news_try.
    rewrite bool_decide_eq_false_2 by (intros H; by apply H).
    fold news_elements.
    eapply Forall2_impl; [apply collect_candidates_links, Hlinks|].
    intros e n (href & i & Hhref & Hpat & _ & Hid & Hurl).
    by exists href. }
  split; [|done].
  apply Forall2_length in Hall. rewrite <- Hall, length_take. lia.
Qed.

(** ** Where the fields of a candidate come from *)

Lemma candidate_of_fields (now : datetime) (page : pystr) (e : element) (n : news) :
  candidate_of now page e = Some n ->
  isin n = nd_isin (parse_news_page now page)
  /\ event_type n = nd_event_type (parse_news_page now page)
  /\ payment_amount n = nd_payment_amount (parse_news_page now page)
  /\ published_date n = nd_published_date (parse_news_page now page).
Proof.
  unfold candidate_of. destruct (el_href e) as [href|]; [|discriminate].
  destruct (negb (str_eqb href []) && contains (lit "/ru/news/view/") href);
    [|discriminate].
  by intros [= <-].
Qed.

Lemma collect_candidates_fields (clock : nat -> datetime) (k : nat) (page : pystr)
    (elements : list element) (n : news) :
  n ∈ collect_candidates clock k page elements ->
  exists i e, candidate_of (clock i) page e = Some n.
Proof.
  revert k. induction elements as [|e rest IH]; intros k Hin.
  - by apply elem_of_nil in Hin.
  - simpl in Hin. destruct (candidate_of (clock k) page e) as [m|] eqn:Hm.
    + apply elem_of_cons in Hin as [->|Hin]; [by exists k, e|by apply (IH (S k))].
    + by apply (IH (S k)).
Qed.

Lemma get_recent_news_fields (clock : nat -> datetime) (outcome : fetch_outcome)
    (n : news) :
  n ∈ get_recent_news clock outcome ->
  exists text i e, outcome = Responded 200 text
                   /\ candidate_of (clock i) text e = Some n.
Proof.
  unfold get_recent_news, get_recent_news_try.
  destruct outcome as [status_code text|f];
    [|intros Hin; by apply elem_of_nil in Hin].
  case_bool_decide as Hstatus; [intros Hin; by apply elem_of_nil in Hin|].
  intros Hin. apply collect_candidates_fields in Hin as (i & e & Hn).
  exists text, i, e. split; [|done].
  f_equal. by destruct (decide (status_code = 200%Z)).
Qed.

(** The three fields that do not read the clock are the same whenever the
    page is parsed. *)
Lemma parse_news_page_clock (now1 now2 : datetime) (page : pystr) :
  nd_isin (parse_news_page now1 page) = nd_isin (parse_news_page now2 page)
  /\ nd_event_type (parse_news_page now1 page) = nd_event_type (parse_news_page now2 page)
  /\ nd_payment_amount (parse_news_page now1 page)
     = nd_payment_amount (parse_news_page now2 page).
Proof. done. Qed.

(** C3 (what the code does instead). Every candidate of a cycle takes its
    ISIN, event type, payment amount and publication date from
    [parse_news_page] run on the text of the index page; the cycle makes
    no other request. Any two candidates of a cycle therefore carry the same
    ISIN, event type and payment amount. *)
Theorem C3_candidates_carry_index_page_fields (clock : nat -> datetime)
    (outcome : fetch_outcome) (n1 n2 : news) :
  n1 ∈ get_recent_news clock outcome ->
  n2 ∈ get_recent_news clock outcome ->
  exists text i1 i2,
    outcome = Responded 200 text
    /\ isin n1 = nd_isin (parse_news_page (clock i1) text)
    /\ event_type n1 = nd_event_type (parse_news_page (clock i1) text)
    /\ payment_amount n1 = nd_payment_amount (parse_news_page (clock i1) text)
    /\ published_date n1 = nd_published_date (parse_news_page (clock i1) text)
    /\ published_date n2 = nd_published_date (parse_news_page (clock i2) text)
    /\ isin n1 = isin n2
    /\ event_type n1 = event_type n2
    /\ payment_amount n1 = payment_amount n2.
Proof.
  intros H1 H2.
  apply get_recent_news_fields in H1 as (text & i1 & e1 & Hout & Hn1).
  apply get_recent_news_fields in H2 as (text' & i2 & e2 & Hout' & Hn2).
  assert (text' = text) as -> by congruence.
  apply candidate_of_fields in Hn1 as (Hi1 & He1 & Hp1 & Hd1).
  apply candidate_of_fields in Hn2 as (Hi2 & He2 & Hp2 & Hd2).
  exists text, i1, i2. split_and!; try done.
  - by rewrite Hi1, Hi2.
  - by rewrite He1, He2.
  - by rewrite Hp1, Hp2.
Qed.

(** ** The defaults of the extractor *)

Lemma digit_char_digit (d : N) : d < 10 -> is_ascii_digit (digit_char d) = true.
Proof.
  intros Hd. unfold is_ascii_digit, digit_char.
  apply andb_true_iff. split; apply N.leb_le; lia.
Qed.

Lemma two_digits_digits (n : N) :
  exists a b, two_digits n = [a; b]
              /\ is_ascii_digit a = true /\ is_ascii_digit b = true.
Proof.
  unfold two_digits. do 2 eexists. split; [reflexivity|].
  split; apply digit_char_digit; by apply N.mod_lt.
Qed.

Lemma year_digits_four (y : N) :
  1000 <= y <= 9999 ->
  exists a b c d, year_digits y = [a; b; c; d]
                  /\ forallb is_ascii_digit [a; b; c; d] = true.
Proof.
  intros Hy. unfold year_digits.
  assert (Hq : 1 <= y / 1000 < 10).
  { split; [apply N.div_le_lower_bound; lia|apply N.Div0.div_lt_upper_bound; lia]. }
  assert (Hlead : (0 =? y / 1000 mod 10) = false).
  { apply N.eqb_neq. rewrite N.mod_small by lia. lia. }
  cbn [span]. rewrite Hlead. cbn [snd map app].
  do 4 eexists. split; [reflexivity|].
  cbn [forallb]. rewrite !digit_char_digit by (by apply N.mod_lt). done.
Qed.

(** A plausible date prints as [DD.MM.YYYY]. *)
Lemma strftime_dmy_shape (now : datetime) :
  plausible_date now -> is_dd_mm_yyyy (strftime_dmy now) = true.
Proof.
  intros (Hy & _ & _). unfold strftime_dmy.
  destruct (two_digits_digits (dt_day now)) as (d1 & d2 & -> & Hd1 & Hd2).
  destruct (two_digits_digits (dt_month now)) as (m1 & m2 & -> & Hm1 & Hm2).
  destruct (year_digits_four (dt_year now) Hy) as (a & b & c & d & -> & Hyd).
  change (lit ".") with [46]. cbn [app is_dd_mm_yyyy].
  cbn [forallb] in *. rewrite Hd1, Hd2, Hm1, Hm2. cbn [andb].
  rewrite Hyd. done.
Qed.

Lemma read_two_digits (n : N) : n < 100 -> read_number (two_digits n) = n.
Proof.
  intros Hn. unfold two_digits, read_number, digit_char. cbn [fold_left].
  assert (Hq : n / 10 < 10) by (apply N.Div0.div_lt_upper_bound; lia).
  rewrite (N.mod_small (n / 10) 10) by done.
  pose proof (N.Div0.div_mod n 10) as Hdm.
  set (q := n / 10) in *. set (r := n mod 10) in *. clearbody q r. lia.
Qed.

Lemma year_digits_read (y : N) :
  1000 <= y <= 9999 ->
  length (year_digits y) = 4%nat /\ read_number (year_digits y) = y.
Proof.
  intros Hy. unfold year_digits.
  assert (Hq : 1 <= y / 1000 < 10).
  { split; [apply N.div_le_lower_bound; lia|apply N.Div0.div_lt_upper_bound; lia]. }
  assert (Hlead : (0 =? y / 1000 mod 10) = false).
  { apply N.eqb_neq. rewrite N.mod_small by lia. lia. }
  cbn [span]. rewrite Hlead. cbn [snd map app length].
  split; [done|]. unfold read_number, digit_char. cbn [fold_left].
  rewrite (N.mod_small (y / 1000) 10) by lia.
  pose proof (N.Div0.div_mod y 10) as H1.
  pose proof (N.Div0.div_mod (y / 10) 10) as H2.
  pose proof (N.Div0.div_mod (y / 100) 10) as H3.
  rewrite N.Div0.div_div in H2, H3. change (10 * 10) with 100 in H2.
  change (100 * 10) with 1000 in H3.
  set (q1 := y / 10) in *. set (q2 := y / 100) in *. set (q3 := y / 1000) in *.
  set (r0 := y mod 10) in *. set (r1 := q1 mod 10) in *. set (r2 := q2 mod 10) in *.
  clearbody q1 q2 q3 r0 r1 r2. lia.
Qed.

(** The printed date reads back as the day, the month and the year of the
    clock. *)
Lemma strftime_dmy_writes (now : datetime) :
  plausible_date now -> writes_date (strftime_dmy now) now.
Proof.
  intros (Hy & Hm & Hd). unfold strftime_dmy.
  destruct (year_digits_read (dt_year now) Hy) as [Hlen Hread].
  exists (two_digits (dt_day now)), (two_digits (dt_month now)),
    (year_digits (dt_year now)).
  split_and!; try done; apply read_two_digits; lia.
Qed.

(** C8, as the code has it. [parse_news_page] has no handler: on markup
    that the HTML parser rejects, the exception of the parser leaves it. On
    every other page it returns a record in which each field it cannot find
    takes its default: without an [h1] the title is the placeholder (in
    which no ISIN is found); without a [time] tag or a [div] of a date class
    the publication date is [strftime("%d.%m.%Y")] of the clock, which has
    the shape [DD.MM.YYYY] and whose digits write the day, the month and the
    year of the clock; without an amount in the page the payment amount is
    [None]; and without any of the keywords in the lower-cased title the
    event type is the placeholder. *)
Theorem C8_parse_news_page_defaults (parser_rejects : pystr -> bool)
    (now : datetime) (html_content : pystr) :
  plausible_date now ->
  if parser_rejects html_content
  then parse_news_page_call parser_rejects now html_content
       = Raise ParserRejectedMarkup
  else
    exists details,
      parse_news_page_call parser_rejects now html_content = Ok details
      /\ (find (lit "h1") (html_parser html_content) = None ->
            nd_title details = lit "Неизвестно" /\ nd_isin details = None)
      /\ (find_date_element (html_parser html_content) = None ->
            nd_published_date details = strftime_dmy now
            /\ is_dd_mm_yyyy (nd_published_date details) = true
            /\ writes_date (nd_published_date details) now)
      /\ (search_payment html_content = None -> nd_payment_amount details = None)
      /\ (search_isin (nd_title details) = None -> nd_isin details = None)
      /\ (contains (lit "выплата купонного дохода") (str_lower (nd_title details))
            = false ->
          contains (lit "погашение") (str_lower (nd_title details)) = false ->
          contains (lit "оферта") (str_lower (nd_title details)) = false ->
          nd_event_type details = lit "Неизвестно").
Proof.
  intros Hnow. unfold parse_news_page_call.
  destruct (parser_rejects html_content); [done|].
  exists (parse_news_page now html_content). split; [done|].
  unfold parse_news_page.
  cbn [nd_title nd_isin nd_event_type nd_payment_amount nd_published_date].
  split_and!.
  - intros ->. split; [done|]. vm_compute. done.
  - intros ->. split_and!; [done|by apply strftime_dmy_shape|by apply strftime_dmy_writes].
  - by intros ->.
  - done.
  - intros H1 H2 H3. unfold detect_event_type. by rewrite H1, H2, H3.
Qed.


(** ** What a cycle leaves in the ledger *)

Lemma map_fmap {A B} (f : A -> B) (l : list A) : map f l = f <$> l.
Proof. reflexivity. Qed.

Lemma elem_of_map {A B} (f : A -> B) (l : list A) (y : B) :
  y ∈ map f l <-> exists x, y = f x /\ x ∈ l.
Proof. rewrite map_fmap. apply list_elem_of_fmap. Qed.

Lemma first_new_fresh (seen : list pystr) (candidates : list news) (n : news) :
  n ∈ first_new seen candidates -> (news_id n ∉ seen) /\ n ∈ candidates.
Proof.
  revert seen. induction candidates as [|c rest IH]; intros seen Hin.
  - by apply elem_of_nil in Hin.
  - simpl in Hin. case_bool_decide as Hseen.
    + apply IH in Hin as [Hn Hin]. split; [done|by right].
    + apply elem_of_cons in Hin as [->|Hin]; [split; [done|left]|].
      apply IH in Hin as [Hn Hin]. split; [|by right].
      intros Hs. apply Hn. by right.
Qed.

Lemma first_new_distinct (seen : list pystr) (candidates : list news) :
  NoDup (map news_id (first_new seen candidates)).
Proof.
  revert seen. induction candidates as [|c rest IH]; intros seen; [constructor|].
  simpl. case_bool_decide as Hseen; [apply IH|].
  simpl. apply NoDup_cons. split; [|apply IH].
  intros Hin. apply elem_of_map in Hin as (n & Heq & Hn).
  apply first_new_fresh in Hn as [Hn _]. apply Hn. rewrite <- Heq. left.
Qed.

Lemma check_loop_ledger (recent : list news) (db : database) (acc : list news) :
  tracked_news (fst (check_loop recent db acc))
  = tracked_news db ++ first_new (ledger_ids db) recent
  /\ user_isins (fst (check_loop recent db acc)) = user_isins db.
Proof.
  revert db acc. induction recent as [|n rest IH]; intros db acc.
  - simpl. by rewrite app_nil_r.
  - simpl. destruct (is_news_tracked (news_id n) db) eqn:E; simpl.
    + apply is_news_tracked_iff in E. rewrite bool_decide_eq_true_2 by done.
      apply IH.
    + assert (Hn : news_id n ∉ ledger_ids db).
      { intros Hin. apply is_news_tracked_iff in Hin. congruence. }
      rewrite bool_decide_eq_false_2 by done.
      rewrite save_news_fresh by done.
      destruct (IH {| tracked_news := tracked_news db ++ [n];
                      user_isins := user_isins db |} (acc ++ [n])) as [Hrows Htable].
      rewrite Hrows, Htable. simpl. split; [|done].
      rewrite <- app_assoc. simpl. do 2 f_equal.
      apply first_new_ext. intros id.
      unfold ledger_ids. simpl. rewrite map_app. simpl.
      rewrite elem_of_app, !elem_of_cons, elem_of_nil. tauto.
Qed.


Lemma cycle_ledger (clock : nat -> datetime) (outcome : fetch_outcome) (db : database) :
  let cycle := check_new_news clock outcome db in
  tracked_news (fst cycle) = tracked_news db ++ snd cycle
  /\ user_isins (fst cycle) = user_isins db
  /\ NoDup (map news_id (snd cycle))
  /\ (forall n, n ∈ snd cycle ->
        (news_id n ∉ ledger_ids db) /\ n ∈ get_recent_news clock outcome).
Proof.
  intros cycle. subst cycle. unfold check_new_news.
  destruct (check_loop_ledger (get_recent_news clock outcome) db []) as [Hrows Htable].
  rewrite Hrows, Htable, check_loop_new. simpl.
  split_and!; [done|done|apply first_new_distinct|apply first_new_fresh].
Qed.

Lemma ledger_unique_app (db db' : database) (new : list news) :
  tracked_news db' = tracked_news db ++ new ->
  NoDup (map news_id new) ->
  (forall n, n ∈ new -> news_id n ∉ ledger_ids db) ->
  ledger_unique db -> ledger_unique db'.
Proof.
  unfold ledger_unique, ledger_ids. intros -> Hnew Hfresh Hu.
  rewrite map_app. apply NoDup_app. split_and!; [done| |done].
  intros id Hid Hin. apply elem_of_map in Hin as (n & -> & Hn).
  by apply (Hfresh n).
Qed.



(** ** Runs of the bot *)

Lemma add_isin_effect (args : list pystr) (user_id : Z) (db : database) :
  let after := fst (add_isin args user_id db) in
  tracked_news after = tracked_news db
  /\ (subscriptions after = subscriptions db
      \/ exists code, isin_shape code = true
                      /\ ((user_id, code) ∉ subscriptions db)
                      /\ subscriptions after = subscriptions db ++ [(user_id, code)]).
Proof.
  unfold add_isin. destruct args as [|arg rest]; [simpl; auto|].
  rewrite match_isin_full_shape by (intros t c; apply strip_last).
  destruct (isin_shape (strip (upper arg))) eqn:Hshape; [|simpl; auto].
  cbn [negb]. cbv iota.
  pose proof (add_isin_tracking_rows (strip (upper arg)) user_id db) as Hrows.
  pose proof (add_isin_tracking_creates (strip (upper arg)) user_id db) as [_ Hnews].
  rewrite (upper_isin_chars (strip (upper arg))) in Hrows
    by (by apply isin_shape_chars).
  destruct (add_isin_tracking (strip (upper arg)) user_id db) as [db1 added].
  simpl in *. split; [done|]. rewrite Hrows.
  case_bool_decide as Hin; [by left|]. right. by exists (strip (upper arg)).
Qed.

Lemma NoDup_map_inj {A B} (f : A -> B) (l : list A) (x y : A) :
  NoDup (map f l) -> x ∈ l -> y ∈ l -> f x = f y -> x = y.
Proof.
  induction l as [|a l IH]; intros Hnd Hx Hy Heq.
  - by apply elem_of_nil in Hx.
  - simpl in Hnd. apply NoDup_cons in Hnd as [Ha Hnd].
    apply elem_of_cons in Hx as [->|Hx]; apply elem_of_cons in Hy as [->|Hy].
    + done.
    + exfalso. apply Ha. rewrite Heq. apply elem_of_map. by exists y.
    + exfalso. apply Ha. rewrite <- Heq. apply elem_of_map. by exists x.
    + by apply IH.
Qed.

Lemma NoDup_map_1 {A B} (f : A -> B) (l : list A) : NoDup (map f l) -> NoDup l.
Proof. rewrite map_fmap. apply NoDup_fmap_1. Qed.

Lemma relevant_news_keys (user_id : Z) (codes : list pystr) (new_news : list news) :
  NoDup (map news_id new_news) ->
  NoDup (map notification_key (map (pair user_id) (relevant_news codes new_news))).
Proof.
  intros Hnd. rewrite map_map. unfold notification_key. simpl.
  rewrite map_fmap. apply NoDup_fmap_2_strong.
  - intros x y Hx Hy [= Heq]. revert Hx Hy.
    unfold relevant_news. rewrite !list_elem_of_filter.
    intros [_ Hx] [_ Hy]. by apply (NoDup_map_inj news_id new_news).
  - apply NoDup_filter. by apply NoDup_map_1 in Hnd.
Qed.

Lemma turns_keys (f : Z -> list (Z * news)) (users : list Z) :
  NoDup users ->
  (forall v d, d ∈ f v -> fst d = v) ->
  (forall v, NoDup (map notification_key (f v))) ->
  NoDup (map notification_key (concat (map f users))).
Proof.
  intros Hnd Hf Hkeys. induction users as [|v users IH]; [constructor|].
  apply NoDup_cons in Hnd as [Hv Hnd]. simpl. rewrite map_app.
  apply NoDup_app. split_and!; [apply Hkeys| |by apply IH].
  intros k Hk Hk'.
  apply elem_of_map in Hk as (d & -> & Hd).
  apply elem_of_map in Hk' as (d' & Heq & Hd').
  apply list_elem_of_In, in_concat in Hd' as (turn & Hturn & Hd').
  apply in_map_iff in Hturn as (w & <- & Hw).
  apply list_elem_of_In in Hd', Hw.
  apply Hf in Hd, Hd'. unfold notification_key in Heq.
  injection Heq as Hfst _. apply Hv. congruence.
Qed.

Lemma user_deliveries_events (db : database) (new_news : list news) (v : Z)
    (d : Z * news) :
  d ∈ user_deliveries db new_news v -> fst d = v /\ snd d ∈ new_news.
Proof.
  unfold user_deliveries. destruct (get_user_isins v db) as [codes|e];
    [|intros H; by apply elem_of_nil in H].
  intros H. apply elem_of_map in H as (n & -> & Hn). simpl. split; [done|].
  unfold relevant_news in Hn. by apply list_elem_of_filter in Hn as [_ Hn].
Qed.

Lemma broadcast_keys (db : database) (new_news : list news) :
  NoDup (map news_id new_news) ->
  NoDup (map notification_key (broadcast db new_news))
  /\ (forall d, d ∈ broadcast db new_news -> snd d ∈ new_news).
Proof.
  intros Hnd. unfold broadcast.
  destruct new_news as [|e0 rest]; [split; [constructor|]|].
  { intros d H. by apply elem_of_nil in H. }
  destruct (user_isins db) as [rows|]; [|split; [constructor|]].
  - split.
    + apply turns_keys.
      * apply NoDup_remove_dups.
      * intros v d Hd. by apply user_deliveries_events in Hd as [Hd _].
      * intros v. unfold user_deliveries.
        destruct (get_user_isins v db) as [codes|e]; [|constructor].
        by apply relevant_news_keys.
    + intros d Hd. apply list_elem_of_In, in_concat in Hd as (turn & Hturn & Hd).
      apply in_map_iff in Hturn as (w & <- & Hw). apply list_elem_of_In in Hd.
      by apply user_deliveries_events in Hd as [_ Hd].
  - intros d H. by apply elem_of_nil in H.
Qed.

(** What one update does to the database and what it sends. *)
Lemma dispatch_effect (u : update) (db : database) :
  exists new,
    tracked_news (fst (dispatch u db)) = tracked_news db ++ new
    /\ NoDup (map news_id new)
    /\ (forall n, n ∈ new -> news_id n ∉ ledger_ids db)
    /\ (forall d, d ∈ snd (dispatch u db) -> snd d ∈ new)
    /\ NoDup (map notification_key (snd (dispatch u db)))
    /\ (subscriptions (fst (dispatch u db)) = subscriptions db
        \/ exists user_id code,
             isin_shape code = true
             /\ ((user_id, code) ∉ subscriptions db)
             /\ subscriptions (fst (dispatch u db))
                = subscriptions db ++ [(user_id, code)]).
Proof.
  assert (Hidle : exists new : list news,
    tracked_news db = tracked_news db ++ new
    /\ NoDup (map news_id new)
    /\ (forall n, n ∈ new -> news_id n ∉ ledger_ids db)
    /\ (forall d : Z * news, d ∈ [] -> snd d ∈ new)
    /\ NoDup (map notification_key [])
    /\ (subscriptions db = subscriptions db
        \/ exists user_id code,
             isin_shape code = true
             /\ ((user_id, code) ∉ subscriptions db)
             /\ subscriptions db = subscriptions db ++ [(user_id, code)])).
  { exists []. rewrite app_nil_r. split_and!.
    - done.
    - constructor.
    - intros n H. by apply elem_of_nil in H.
    - intros d H. by apply elem_of_nil in H.
    - constructor.
    - by left. }
  destruct u as [|args user_id|user_id|user_id clock outcome|clock outcome
                 |clock outcome]; try exact Hidle.
  - (* /add *)
    destruct (add_isin_effect args user_id db) as [Hnews Hrows]. simpl.
    exists []. rewrite app_nil_r. split_and!.
    + done.
    + constructor.
    + intros n H. by apply elem_of_nil in H.
    + intros d H. by apply elem_of_nil in H.
    + constructor.
    + destruct Hrows as [Hrows|(code & H1 & H2 & H3)]; [by left|].
      right. by exists user_id, code.
  - (* /check *)
    destruct (cycle_ledger clock outcome db) as (Hrows & Htable & Hnd & Hfresh).
    simpl. unfold manual_check.
    destruct (get_user_isins user_id db) as [[|c codes]|e]; try exact Hidle.
    destruct (check_new_news clock outcome db) as [db1 new_news]. simpl in *.
    exists new_news. split_and!.
    + done.
    + done.
    + intros n Hn. by apply Hfresh.
    + intros d Hd. apply elem_of_map in Hd as (n & -> & Hn). simpl.
      unfold relevant_news in Hn. by apply list_elem_of_filter in Hn as [_ Hn].
    + by apply relevant_news_keys.
    + left. unfold subscriptions. by rewrite Htable.
  - (* the job *)
    destruct (cycle_ledger clock outcome db) as (Hrows & Htable & Hnd & Hfresh).
    simpl. unfold scheduled_news_check.
    destruct (check_new_news clock outcome db) as [db1 new_news]. simpl in *.
    destruct (broadcast_keys db1 new_news Hnd) as [Hkeys Hsent].
    exists new_news. split_and!.
    + done.
    + done.
    + intros n Hn. by apply Hfresh.
    + done.
    + done.
    + left. unfold subscriptions. by rewrite Htable.
Qed.

Lemma run_cons (u : update) (rest : list update) (db : database) :
  run (u :: rest) db =
    (fst (run rest (fst (dispatch u db))),
     snd (dispatch u db) ++ snd (run rest (fst (dispatch u db)))).
Proof.
  simpl. destruct (dispatch u db) as [db1 sent1]. simpl.
  by destruct (run rest db1).
Qed.

(** X3. Whatever updates the bot handles one after the other, starting
    from whatever database, no event is sent twice for the same user: the
    pairs of user and [news_id] of all the events sent are pairwise
    distinct, and no event sent was in the ledger at the start. *)
Theorem X3_no_event_sent_twice (updates : list update) (db : database) :
  NoDup (map notification_key (snd (run updates db)))
  /\ (forall d, d ∈ snd (run updates db) -> news_id (snd d) ∉ ledger_ids db).
Proof.
  revert db. induction updates as [|u rest IH]; intros db.
  - simpl. split; [constructor|]. intros d H. by apply elem_of_nil in H.
  - rewrite run_cons. cbn [snd].
    destruct (dispatch_effect u db) as (new & Hrows & Hnd & Hfresh & Hsent & Hkeys & _).
    destruct (IH (fst (dispatch u db))) as [IHkeys IHfresh].
    assert (Hrecorded : forall d, d ∈ snd (dispatch u db) ->
              news_id (snd d) ∈ ledger_ids (fst (dispatch u db))).
    { intros d Hd. unfold ledger_ids. rewrite Hrows, map_app.
      apply elem_of_app. right. apply elem_of_map. exists (snd d).
      split; [done|]. by apply Hsent. }
    split.
    + rewrite map_app. apply NoDup_app. split_and!; [done| |done].
      intros k Hk Hk'.
      apply elem_of_map in Hk as (d & -> & Hd).
      apply elem_of_map in Hk' as (d' & Heq & Hd').
      apply (IHfresh d' Hd'). injection Heq as _ <-. by apply Hrecorded.
    + intros d Hd. apply elem_of_app in Hd as [Hd|Hd].
      * by apply Hfresh, Hsent.
      * intros Hin. apply (IHfresh d Hd).
        unfold ledger_ids in *. rewrite Hrows, map_app.
        apply elem_of_app. by left.
Qed.

Lemma dispatch_ok (u : update) (db : database) :
  database_ok db -> database_ok (fst (dispatch u db)).
Proof.
  intros (Hledger & Hsubs & Hcodes).
  destruct (dispatch_effect u db) as (new & Hrows & Hnd & Hfresh & _ & _ & Hadd).
  split_and!.
  - by apply (ledger_unique_app db _ new).
  - unfold subscriptions_unique in *.
    destruct Hadd as [->|(user_id & code & _ & Hnew & ->)]; [done|].
    apply NoDup_app. split_and!; [done| |apply NoDup_singleton].
    intros x Hx Hx'. apply list_elem_of_singleton in Hx'. by subst.
  - destruct Hadd as [->|(user_id & code & Hshape & _ & ->)]; [done|].
    apply Forall_app. split; [done|]. by constructor.
Qed.

Lemma dispatch_grows (u : update) (db : database) :
  tracked_news db `prefix_of` tracked_news (fst (dispatch u db))
  /\ subscriptions db `prefix_of` subscriptions (fst (dispatch u db)).
Proof.
  destruct (dispatch_effect u db) as (new & Hrows & _ & _ & _ & _ & Hadd).
  split.
  - rewrite Hrows. by apply prefix_app_r.
  - destruct Hadd as [->|(user_id & code & _ & _ & ->)]; [done|].
    by apply prefix_app_r.
Qed.

(** X4. Every handler keeps the database in order and deletes nothing: if
    the ledger has no identifier twice, the subscriptions no pair twice and
    every subscribed code is [RU] plus ten characters out of [0-9A-Z], the
    same holds after any run of updates, and the old rows of both tables
    are still there, in front of the rows added since. *)
Theorem X4_run_keeps_database_in_order (updates : list update) (db : database) :
  database_ok db ->
  database_ok (fst (run updates db))
  /\ tracked_news db `prefix_of` tracked_news (fst (run updates db))
  /\ subscriptions db `prefix_of` subscriptions (fst (run updates db)).
Proof.
  revert db. induction updates as [|u rest IH]; intros db Hok; [done|].
  rewrite run_cons. cbn [fst].
  destruct (IH (fst (dispatch u db)) (dispatch_ok u db Hok)) as (Hok' & Hnews & Hsubs).
  destruct (dispatch_grows u db) as [Hnews1 Hsubs1].
  split_and!; [done|by etrans|by etrans].
Qed.


(** ** The ISIN of an event *)

Lemma match_isin_prefix_shape (s m : pystr) :
  match_isin_prefix s = Some m <->
  exists post, s = m ++ post /\ isin_shape m = true.
Proof.
  unfold match_isin_prefix, isin_shape. split.
  - destruct (startswith (lit "RU") s) eqn:ERU; [|discriminate].
    apply startswith_RU in ERU as [rest ->].
    change (drop 2 (82 :: 85 :: rest)) with rest.
    change (take 12 (82 :: 85 :: rest)) with (82 :: 85 :: take 10 rest).
    destruct (Nat.eqb_spec (length (take 10 rest)) 10) as [Hlen|]; [|discriminate].
    destruct (forallb is_isin_char (take 10 rest)) eqn:Hchars; [|discriminate].
    intros [= <-]. exists (drop 10 rest). split.
    + by rewrite <- !app_comm_cons, take_drop.
    + change (drop 2 (82 :: 85 :: take 10 rest)) with (take 10 rest).
      rewrite Hchars. cbn [length]. rewrite Hlen. reflexivity.
  - intros (post & -> & H).
    apply andb_true_iff in H as [H Hchars]. apply andb_true_iff in H as [Hlen HRU].
    apply startswith_RU in HRU as [body ->].
    apply Nat.eqb_eq in Hlen. cbn [length] in Hlen.
    change (drop 2 (82 :: 85 :: body)) with body in Hchars.
    rewrite <- !app_comm_cons.
    change (startswith (lit "RU") (82 :: 85 :: body ++ post)) with true.
    change (drop 2 (82 :: 85 :: body ++ post)) with (body ++ post).
    change (take 12 (82 :: 85 :: body ++ post))
      with (82 :: 85 :: take 10 (body ++ post)).
    assert (Htake : take 10 (body ++ post) = body).
    { rewrite take_app_le by lia. apply take_ge. lia. }
    rewrite Htake, Hchars.
    destruct (Nat.eqb_spec (length body) 10); [done|lia].
Qed.

(** What [re.search] finds: the leftmost occurrence of the shape, if any. *)
Lemma search_isin_found (s m : pystr) :
  search_isin s = Some m ->
  isin_shape m = true
  /\ exists pre post,
       s = pre ++ m ++ post
       /\ forall pre' m' post',
            s = pre' ++ m' ++ post' -> isin_shape m' = true ->
            (length pre <= length pre')%nat.
Proof.
  induction s as [|c s IH].
  - cbn. discriminate.
  - cbn [search_isin].
    destruct (match_isin_prefix (c :: s)) as [m0|] eqn:Hhead.
    + intros [= ->]. apply match_isin_prefix_shape in Hhead as (post & Hs & Hshape).
      split; [done|]. exists [], post. split; [done|]. intros. simpl. lia.
    + intros Hfound. destruct (IH Hfound) as (Hshape & pre & post & -> & Hleft).
      split; [done|]. exists (c :: pre), post. split; [done|].
      intros pre' m' post' Heq Hshape'. destruct pre' as [|c' pre'].
      * simpl in Heq.
        assert (Hm : match_isin_prefix (c :: pre ++ m ++ post) = Some m').
        { apply match_isin_prefix_shape. by exists post'. }
        congruence.
      * injection Heq as _ Heq. simpl.
        specialize (Hleft pre' m' post' Heq Hshape'). lia.
Qed.

Lemma search_isin_none (s : pystr) :
  search_isin s = None ->
  forall pre m post, s = pre ++ m ++ post -> isin_shape m = false.
Proof.
  induction s as [|c s IH]; intros Hnone pre m post Heq.
  - destruct pre; [|discriminate]. destruct m; [done|discriminate].
  - cbn [search_isin] in Hnone.
    destruct (match_isin_prefix (c :: s)) as [m0|] eqn:Hhead; [discriminate|].
    destruct pre as [|c' pre].
    + destruct (isin_shape m) eqn:Hshape; [|done].
      assert (Hm : match_isin_prefix (c :: s) = Some m).
      { apply match_isin_prefix_shape. by exists post. }
      congruence.
    + injection Heq as _ Heq. by apply (IH Hnone pre m post).
Qed.

(** X5. The ISIN that [parse_news_page] reports is the leftmost piece of
    the title that is [RU] followed by ten characters out of [0-9A-Z]; it
    reports [None] only when the title has no such piece. *)
Theorem X5_isin_is_leftmost_code_of_title (now : datetime) (html_content : pystr) :
  let details := parse_news_page now html_content in
  match nd_isin details with
  | Some code =>
      isin_shape code = true
      /\ exists pre post,
           nd_title details = pre ++ code ++ post
           /\ forall pre' m' post',
                nd_title details = pre' ++ m' ++ post' -> isin_shape m' = true ->
                (length pre <= length pre')%nat
  | None =>
      forall pre m post, nd_title details = pre ++ m ++ post -> isin_shape m = false
  end.
Proof.
  intros details. subst details. unfold parse_news_page. cbn [nd_isin nd_title].
  destruct (search_isin _) as [code|] eqn:Hsearch.
  - by apply search_isin_found.
  - by apply search_isin_none.
Qed.

(** ** Extracted codes and subscribed codes *)

Lemma isin_char_not_space (c : N) : is_isin_char c = true -> isspace c = false.
Proof.
  unfold is_isin_char, is_ascii_digit, is_ascii_upper. intros H.
  assert (Hc : 48 <= c <= 90).
  { apply orb_true_iff in H as [H|H]; apply andb_true_iff in H as [H1 H2];
      apply N.leb_le in H1, H2; lia. }
  unfold isspace.
  destruct (N.leb_spec c 13); [lia|]. destruct (N.leb_spec c 32); [lia|].
  destruct (N.eqb_spec c 133); [lia|]. destruct (N.eqb_spec c 160); [lia|].
  destruct (N.eqb_spec c 5760); [lia|]. destruct (N.leb_spec 8192 c); [lia|].
  destruct (N.eqb_spec c 8232); [lia|]. destruct (N.eqb_spec c 8233); [lia|].
  destruct (N.eqb_spec c 8239); [lia|]. destruct (N.eqb_spec c 8287); [lia|].
  destruct (N.eqb_spec c 12288); [lia|].
  by rewrite !andb_false_r.
Qed.

Lemma lstrip_keeps (s : pystr) :
  (forall c t, s = c :: t -> isspace c = false) -> lstrip s = s.
Proof.
  destruct s as [|c t]; [done|]. intros H. simpl. by rewrite (H c t).
Qed.

Lemma strip_keeps (s : pystr) :
  (forall c t, s = c :: t -> isspace c = false) ->
  (forall t c, s = t ++ [c] -> isspace c = false) ->
  strip s = s.
Proof.
  intros Hfirst Hlast. unfold strip, rstrip. rewrite (lstrip_keeps s) by done.
  rewrite lstrip_keeps; [apply rev_involutive|].
  intros c t Hrev. apply (Hlast (rev t) c).
  rewrite <- (rev_involutive s), Hrev. reflexivity.
Qed.

Lemma isin_shape_normal (code : pystr) :
  isin_shape code = true -> strip (upper code) = code.
Proof.
  intros Hshape. pose proof (isin_shape_chars code Hshape) as Hchars.
  rewrite upper_isin_chars by done.
  rewrite forallb_forall in Hchars.
  apply strip_keeps.
  - intros c t ->. apply isin_char_not_space, Hchars. by left.
  - intros t c ->. apply isin_char_not_space, Hchars, in_or_app. right. by left.
Qed.

(** What [/add] does with an argument whose normal form has the shape. *)
Lemma add_isin_valid (arg : pystr) (rest : list pystr) (user_id : Z) (db : database) :
  let code := strip (upper arg) in
  isin_shape code = true ->
  add_isin (arg :: rest) user_id db =
    (fst (add_isin_tracking code user_id db),
     if bool_decide ((user_id, code) ∈ subscriptions db)
     then ReplyAlreadyTracked code else ReplyAdded code)
  /\ (user_id, code) ∈ subscriptions (fst (add_isin_tracking code user_id db)).
Proof.
  intros code Hshape. unfold add_isin. fold code.
  rewrite match_isin_full_shape by (intros t c; apply strip_last).
  rewrite Hshape. cbn [negb]. cbv iota.
  pose proof (add_isin_tracking_stores code user_id db) as Hin.
  pose proof (add_isin_tracking_result code user_id db) as Hres.
  rewrite (upper_isin_chars code) in Hin, Hres by (by apply isin_shape_chars).
  destruct (add_isin_tracking code user_id db) as [db1 added]. simpl in *.
  split; [|done]. rewrite Hres. by case_bool_decide.
Qed.

(** X6. A subscriber can always subscribe to the code an event carries:
    [/add] with the ISIN of any candidate of the fetcher is accepted
    without change of the code, and afterwards the routing test selects
    that event for the subscriber. *)
Theorem X6_event_code_can_be_subscribed (clock : nat -> datetime)
    (outcome : fetch_outcome) (n : news) (code : pystr) (rest : list pystr)
    (user_id : Z) (db : database) :
  n ∈ get_recent_news clock outcome ->
  isin n = Some code ->
  let out := add_isin (code :: rest) user_id db in
  (snd out = ReplyAdded code \/ snd out = ReplyAlreadyTracked code)
  /\ tracks (subscriptions (fst out)) user_id n = true
  /\ (forall new_news, n ∈ new_news ->
        n ∈ relevant_news (listed_codes user_id (subscriptions (fst out))) new_news).
Proof.
  intros Hn Hcode out.
  assert (Hshape : isin_shape code = true).
  { apply get_recent_news_fields in Hn as (text & i & e & _ & Hcand).
    apply candidate_of_fields in Hcand as (Hisin & _).
    rewrite Hcode in Hisin. unfold parse_news_page in Hisin. cbn [nd_isin] in Hisin.
    symmetry in Hisin. by apply search_isin_found in Hisin as [Hshape _]. }
  pose proof (isin_shape_normal code Hshape) as Hnormal.
  destruct (add_isin_valid code rest user_id db) as [Hout Hin];
    [by rewrite Hnormal|].
  rewrite Hnormal in Hout, Hin. subst out. rewrite Hout. cbn [fst snd].
  assert (Htracks : tracks (subscriptions (fst (add_isin_tracking code user_id db)))
                      user_id n = true).
  { unfold tracks. rewrite Hcode. by apply bool_decide_eq_true_2. }
  split_and!.
  - case_bool_decide; auto.
  - done.
  - intros new_news Hnew. rewrite relevant_news_tracks. apply list_elem_of_filter.
    split; [by apply Is_true_true|done].
Qed.

(** X11. [/add] twice with two spellings of one code: when the two
    arguments have the same normal form and that form has the ISIN shape,
    the second command answers that the code is tracked already and leaves
    the database as the first left it. *)
Theorem X11_add_again_in_another_spelling (arg1 arg2 : pystr)
    (rest1 rest2 : list pystr) (user_id : Z) (db : database) :
  strip (upper arg1) = strip (upper arg2) ->
  isin_shape (strip (upper arg1)) = true ->
  let first := add_isin (arg1 :: rest1) user_id db in
  add_isin (arg2 :: rest2) user_id (fst first)
  = (fst first, ReplyAlreadyTracked (strip (upper arg1))).
Proof.
  intros Hsame Hshape first.
  destruct (add_isin_valid arg1 rest1 user_id db Hshape) as [Hfirst Hin].
  subst first. rewrite Hfirst. cbn [fst].
  set (code := strip (upper arg1)) in *.
  set (db1 := fst (add_isin_tracking code user_id db)) in *.
  destruct (add_isin_valid arg2 rest2 user_id db1) as [Hsecond _];
    [by rewrite <- Hsame|].
  rewrite Hsecond, <- Hsame. fold code.
  rewrite bool_decide_eq_true_2 by done. f_equal.
  rewrite add_isin_tracking_again; [done| |].
  - apply add_isin_tracking_creates.
  - rewrite upper_isin_chars by (by apply isin_shape_chars). done.
Qed.


(** ** The payment amount *)

Lemma span_parts (p : N -> bool) (s : pystr) :
  s = fst (span p s) ++ snd (span p s) /\ forallb p (fst (span p s)) = true.
Proof.
  induction s as [|c s [IH1 IH2]]; [done|]. simpl.
  destruct (p c) eqn:Hc; [|done].
  destruct (span p s) as [run rest]. simpl in *.
  split; [by f_equal|]. by rewrite Hc.
Qed.

Lemma match_payment_prefix_parts (s g : pystr) :
  match_payment_prefix s = Some g ->
  exists int_part sep frac_part spaces rest,
    g = int_part ++ sep :: frac_part
    /\ s = g ++ spaces ++ rest
    /\ int_part <> [] /\ frac_part <> []
    /\ forallb is_decimal int_part = true
    /\ forallb is_decimal frac_part = true
    /\ (sep = 46 \/ sep = 44)
    /\ forallb isspace spaces = true
    /\ startswith_ignorecase (lit "руб") rest = true.
Proof.
  unfold match_payment_prefix.
  destruct (span_parts is_decimal s) as [Hs Hint].
  destruct (span is_decimal s) as [int_part r1]. simpl in Hs, Hint.
  destruct int_part as [|d int_part]; [discriminate|].
  destruct r1 as [|sep r2]; [discriminate|].
  destruct ((sep =? 46) || (sep =? 44)) eqn:Hsep; [|discriminate].
  destruct (span_parts is_decimal r2) as [Hr2 Hfrac].
  destruct (span is_decimal r2) as [frac_part r3]. simpl in Hr2, Hfrac.
  destruct frac_part as [|f frac_part]; [discriminate|].
  destruct (span_parts isspace r3) as [Hr3 Hspaces].
  destruct (startswith_ignorecase (lit "руб") (snd (span isspace r3))) eqn:Hunit;
    [|discriminate].
  intros [= <-].
  exists (d :: int_part), sep, (f :: frac_part), (fst (span isspace r3)),
    (snd (span isspace r3)).
  split_and!; try done.
  - rewrite Hs at 1. rewrite Hr2 at 1. rewrite Hr3 at 1.
    simpl. by rewrite <- app_assoc.
  - apply orb_true_iff in Hsep as [H|H]; apply N.eqb_eq in H; auto.
Qed.

Lemma search_payment_parts (s g : pystr) :
  search_payment s = Some g ->
  exists pre int_part sep frac_part spaces rest,
    g = int_part ++ sep :: frac_part
    /\ s = pre ++ g ++ spaces ++ rest
    /\ int_part <> [] /\ frac_part <> []
    /\ forallb is_decimal int_part = true
    /\ forallb is_decimal frac_part = true
    /\ (sep = 46 \/ sep = 44)
    /\ forallb isspace spaces = true
    /\ startswith_ignorecase (lit "руб") rest = true.
Proof.
  induction s as [|c s IH].
  - cbn. discriminate.
  - cbn [search_payment].
    destruct (match_payment_prefix (c :: s)) as [g0|] eqn:Hhead.
    + intros [= ->].
      apply match_payment_prefix_parts in Hhead
        as (i & sep & f & sp & rest & H1 & H2 & H).
      by exists [], i, sep, f, sp, rest.
    + intros Hfound.
      destruct (IH Hfound) as (pre & i & sep & f & sp & rest & H1 & -> & H).
      by exists (c :: pre), i, sep, f, sp, rest.
Qed.

(** X7. A payment amount that [parse_news_page] reports is a number of
    the page text followed by [" руб."]: digits, a point or a comma, digits,
    found in the page right before optional white space and the letters
    [руб] in either case. *)
Theorem X7_payment_amount_is_a_number_of_the_page (now : datetime)
    (html_content : pystr) :
  match nd_payment_amount (parse_news_page now html_content) with
  | Some amount =>
      exists pre int_part sep frac_part spaces rest,
        amount = int_part ++ sep :: frac_part ++ lit " руб."
        /\ html_content = pre ++ (int_part ++ sep :: frac_part) ++ spaces ++ rest
        /\ int_part <> [] /\ frac_part <> []
        /\ forallb is_decimal int_part = true
        /\ forallb is_decimal frac_part = true
        /\ (sep = 46 \/ sep = 44)
        /\ forallb isspace spaces = true
        /\ startswith_ignorecase (lit "руб") rest = true
  | None => search_payment html_content = None
  end.
Proof.
  unfold parse_news_page. cbn [nd_payment_amount].
  destruct (search_payment html_content) as [g|] eqn:Hsearch; [|done].
  apply search_payment_parts in Hsearch
    as (pre & i & sep & f & sp & rest & -> & Hpage & H).
  exists pre, i, sep, f, sp, rest. split; [|by split].
  by rewrite <- app_assoc, <- app_comm_cons.
Qed.

(** ** One subscriber and the others *)

Lemma listed_codes_app (user_id : Z) (rows1 rows2 : list (Z * pystr)) :
  listed_codes user_id (rows1 ++ rows2)
  = listed_codes user_id rows1 ++ listed_codes user_id rows2.
Proof. unfold listed_codes. by rewrite filter_app, map_app. Qed.

(** X10. Adding a code for one user adds at most that one code, in upper
    case, to the codes listed for this user (whatever the order in which
    they are listed), changes the codes listed for no other user, and
    leaves the ledger alone. *)
Theorem X10_add_changes_one_list (isin_code : pystr) (user_id : Z) (db : database) :
  let out := add_isin_tracking isin_code user_id db in
  listed_codes user_id (subscriptions (fst out))
  ≡ₚ listed_codes user_id (subscriptions db)
     ++ (if snd out then [upper isin_code] else [])
  /\ (forall other, other <> user_id ->
        listed_codes other (subscriptions (fst out))
        = listed_codes other (subscriptions db))
  /\ tracked_news (fst out) = tracked_news db.
Proof.
  intros out. subst out.
  rewrite add_isin_tracking_rows, add_isin_tracking_result.
  split_and!.
  - case_bool_decide; simpl; [by rewrite app_nil_r|].
    rewrite listed_codes_app, listed_codes_cons. simpl.
    by rewrite bool_decide_eq_true_2.
  - intros other Hother. case_bool_decide; [done|].
    rewrite listed_codes_app, listed_codes_cons. simpl.
    rewrite bool_decide_eq_false_2 by congruence. by rewrite app_nil_r.
  - apply add_isin_tracking_creates.
Qed.

(** ** Before the first subscription *)

(** X12. While no code was ever added the table [user_isins] does not
    exist: [/list] and [/check] end in [OperationalError] instead of an
    answer, and the job ingests what it finds and sends nothing. As soon as
    [add_isin_tracking] has run for any user, [/list] answers for every
    user. *)
Theorem X12_no_table_before_first_add (clock : nat -> datetime)
    (outcome : fetch_outcome) (user_id : Z) (db : database) :
  user_isins db = None ->
  list_isins user_id db = Raise OperationalError
  /\ manual_check clock outcome user_id db = Raise OperationalError
  /\ scheduled_news_check clock outcome db
     = (fst (check_new_news clock outcome db), [])
  /\ (forall isin_code adder,
        exists answer,
          list_isins user_id (fst (add_isin_tracking isin_code adder db)) = Ok answer).
Proof.
  intros Hnone. split_and!.
  - unfold list_isins, get_user_isins. by rewrite Hnone.
  - unfold manual_check, get_user_isins. by rewrite Hnone.
  - destruct (cycle_ledger clock outcome db) as (_ & Htable & _).
    unfold scheduled_news_check.
    destruct (check_new_news clock outcome db) as [db1 new_news]. simpl in *.
    f_equal. unfold broadcast. rewrite Htable, Hnone. by destruct new_news.
  - intros isin_code adder. unfold list_isins.
    rewrite get_user_isins_listed by apply add_isin_tracking_creates.
    destruct (listed_codes user_id _); eauto.
Qed.


(** ** A check consumes what it finds *)



(** ** The address and the title of a candidate *)

Lemma contains_app_r (p pre s : pystr) :
  contains p s = true -> contains p (pre ++ s) = true.
Proof.
  intros H. induction pre as [|c pre IH]; [done|].
  cbn [app contains]. by rewrite IH, orb_true_r.
Qed.

Lemma split_on_clean (sep : N) (s : pystr) : sep ∉ s -> split_on sep s = [s].
Proof.
  induction s as [|c s IH]; intros Hnin; [done|].
  apply not_elem_of_cons in Hnin as [Hne Hnin]. simpl.
  destruct (N.eqb_spec c sep) as [->|_]; [done|]. by rewrite IH.
Qed.

Lemma split_on_app_last (sep : N) (prefix id : pystr) :
  sep ∉ id ->
  exists front, front <> []
                /\ split_on sep (prefix ++ sep :: id) = front ++ [id].
Proof.
  intros Hid. induction prefix as [|c prefix (front & Hne & IH)].
  - exists [[]]. split; [done|]. simpl. rewrite N.eqb_refl.
    by rewrite split_on_clean.
  - cbn [app split_on]. rewrite IH. destruct (c =? sep).
    + by exists ([] :: front).
    + destruct front as [|f front']; [done|]. by exists ((c :: f) :: front').
Qed.

Lemma last_piece_app (sep : N) (prefix id : pystr) :
  sep ∉ id -> last_piece (split_on sep (prefix ++ sep :: id)) = id.
Proof.
  intros Hid. destruct (split_on_app_last sep prefix id Hid) as (front & _ & ->).
  unfold last_piece. apply List.last_last.
Qed.

(** What a candidate is made of. *)
Lemma get_recent_news_inv (clock : nat -> datetime) (outcome : fetch_outcome)
    (n : news) :
  n ∈ get_recent_news clock outcome ->
  exists e href,
    el_href e = Some href
    /\ contains (lit "/ru/news/view/") href = true
    /\ is_last_segment href (news_id n)
    /\ news_url n = item_url href
    /\ title n = (if str_eqb (get_text_stripped e) [] then lit "Без названия"
                  else get_text_stripped e).
Proof.
  intros Hn. apply get_recent_news_fields in Hn as (text & i & e & _ & Hcand).
  assert (Hlink : exists href, el_href e = Some href
                    /\ contains (lit "/ru/news/view/") href = true).
  { unfold candidate_of in Hcand. destruct (el_href e) as [href|]; [|discriminate].
    exists href. split; [done|].
    destruct (contains (lit "/ru/news/view/") href); [done|].
    by rewrite andb_false_r in Hcand. }
  destruct Hlink as (href & Hhref & Hpat).
  destruct (candidate_of_news_link (clock i) text e href Hhref Hpat)
    as (n' & Hn' & Hid & Hurl & _).
  assert (n' = n) as -> by congruence.
  exists e, href. split_and!; try done.
  unfold candidate_of in Hcand. rewrite Hhref in Hcand.
  destruct (negb (str_eqb href []) && contains (lit "/ru/news/view/") href);
    [|discriminate].
  by injection Hcand as <-.
Qed.

(** X9. The address of a candidate ends in a slash and its [news_id]:
    splitting the stored [news_url] at the slashes gives back the
    [news_id], and the address contains the item path. *)
Theorem X9_news_id_can_be_read_off_the_url (clock : nat -> datetime)
    (outcome : fetch_outcome) (n : news) :
  n ∈ get_recent_news clock outcome ->
  last_piece (split_on 47 (news_url n)) = news_id n
  /\ contains (lit "/ru/news/view/") (news_url n) = true.
Proof.
  intros Hn.
  apply get_recent_news_inv in Hn as (e & href & _ & Hpat & [[prefix Hhref] Hid] & Hurl & _).
  rewrite Hurl. unfold item_url. split.
  - destruct (startswith (lit "/") href).
    + rewrite Hhref, app_assoc. by apply last_piece_app.
    + rewrite Hhref. by apply last_piece_app.
  - destruct (startswith (lit "/") href); [by apply contains_app_r|done].
Qed.

Lemma strip_first (s : pystr) (c : N) (t : pystr) :
  strip s = c :: t -> isspace c = false.
Proof.
  unfold strip, rstrip. intros H.
  assert (Hprefix : forall x : pystr, exists rest, x = rev (lstrip (rev x)) ++ rest).
  { intros x.
    assert (Hsuffix : forall y : pystr, exists pre, y = pre ++ lstrip y).
    { induction y as [|a y [pre IH]]; [by exists []|]. simpl.
      destruct (isspace a); [|by exists []].
      exists (a :: pre). simpl. by f_equal. }
    destruct (Hsuffix (rev x)) as [pre Hpre]. exists (rev pre).
    rewrite <- rev_app_distr, <- Hpre. by rewrite rev_involutive. }
  destruct (Hprefix (lstrip s)) as [rest Hrest]. rewrite H in Hrest.
  by apply (lstrip_head s c (t ++ rest)).
Qed.

Lemma trimmed_ends (s : pystr) :
  trimmed s <->
  (forall c, head s = Some c -> isspace c = false)
  /\ (forall c, last s = Some c -> isspace c = false).
Proof.
  unfold trimmed. split.
  - intros Hs. split; intros c Hc.
    + apply head_Some in Hc as [t Ht]. rewrite Ht in Hs. by apply strip_first in Hs.
    + apply last_Some in Hc as [t Ht]. rewrite Ht in Hs. by apply strip_last in Hs.
  - intros [Hhead Hlast]. apply strip_keeps.
    + intros c t ->. by apply Hhead.
    + intros t c ->. apply Hlast, last_snoc.
Qed.

Lemma strip_trimmed (s : pystr) : trimmed (strip s).
Proof.
  apply trimmed_ends. split; intros c Hc.
  - apply head_Some in Hc as [t Ht]. by apply strip_first in Ht.
  - apply last_Some in Hc as [t Ht]. by apply strip_last in Ht.
Qed.

Lemma concat_trimmed (pieces : list pystr) :
  Forall (fun p => trimmed p /\ p <> []) pieces -> trimmed (concat pieces).
Proof.
  induction 1 as [|p pieces [Hp Hne] _ IH]; [done|].
  apply trimmed_ends in Hp as [Hhead Hlast].
  apply trimmed_ends in IH as [IHhead IHlast].
  apply trimmed_ends. simpl. split; intros c.
  - rewrite head_app. destruct p as [|a p]; [done|]. apply Hhead.
  - rewrite last_app. destruct (last (concat pieces)) as [y|] eqn:Hy.
    + intros [= <-]. by apply IHlast.
    + apply Hlast.
Qed.

Lemma get_text_stripped_trimmed (e : element) : trimmed (get_text_stripped e).
Proof.
  unfold get_text_stripped. apply concat_trimmed.
  apply Forall_forall. intros p Hp.
  apply list_elem_of_filter in Hp as [Hne Hp].
  apply elem_of_map in Hp as (s & -> & _). split; [apply strip_trimmed|].
  intros Hempty. rewrite Hempty in Hne. by vm_compute in Hne.
Qed.

(** X8. Every candidate of the fetcher has a title: it is not empty and
    has no white space at its ends (it is the text of the link without the
    white space around its text nodes, or the placeholder). *)
Theorem X8_candidate_titles_are_trimmed (clock : nat -> datetime)
    (outcome : fetch_outcome) (n : news) :
  n ∈ get_recent_news clock outcome ->
  title n <> [] /\ trimmed (title n).
Proof.
  intros Hn.
  apply get_recent_news_inv in Hn as (e & href & _ & _ & _ & _ & ->).
  unfold str_eqb. case_bool_decide as Hempty.
  - split; [by vm_compute|]. unfold trimmed. by vm_compute.
  - split; [done|apply get_text_stripped_trimmed].
Qed.


(** ** The texts the bot sends *)

Lemma truthy_cons (c : N) (s : pystr) : truthy (c :: s) = true.
Proof. unfold truthy, str_eqb. by rewrite bool_decide_eq_false_2. Qed.

Lemma truthy_nonempty (s : pystr) : s <> [] -> truthy s = true.
Proof. destruct s; [done|]. intros _. apply truthy_cons. Qed.

Lemma detect_event_type_truthy (title : pystr) :
  truthy (detect_event_type title) = true.
Proof.
  unfold detect_event_type.
  destruct (contains _ _); [reflexivity|].
  destruct (contains _ _); [reflexivity|].
  destruct (contains _ _); reflexivity.
Qed.

(** X14. For an event that the fetcher produced, the notification always
    carries the event type, the title and the link; the ISIN line and the
    amount line are there exactly when the event has the field, and only
    an empty publication date is left out. *)
Theorem X14_message_of_a_candidate (clock : nat -> datetime)
    (outcome : fetch_outcome) (n : news) :
  n ∈ get_recent_news clock outcome ->
  format_news_message n =
    lit "👔 **НОВОЕ СОБЫТИЕ**" ++ [10; 10]
    ++ match isin n with
       | Some i => lit "`" ++ i ++ lit "`" ++ [10; 10]
       | None => []
       end
    ++ (if truthy (published_date n)
        then lit "🗓 *" ++ published_date n ++ lit "*" ++ [10] else [])
    ++ lit "📋 *" ++ event_type n ++ lit "*" ++ [10; 10]
    ++ lit "*" ++ title n ++ lit "*" ++ [10]
    ++ match payment_amount n with
       | Some p => [10] ++ lit "💰 *Размер выплаты:* " ++ p
       | None => []
       end
    ++ [10; 10] ++ lit "🔗 [Подробнее](" ++ news_url n ++ lit ")".
Proof.
  intros Hn. unfold format_news_message.
  pose proof (get_recent_news_inv clock outcome n Hn)
    as (e & href & _ & Hpat & _ & Hurl & _).
  apply get_recent_news_fields in Hn as (text & i & e' & _ & Hcand).
  apply candidate_of_fields in Hcand as (Hisin & Htype & Hpay & _).
  assert (Hi : match isin n with Some c => truthy c = true | None => True end).
  { rewrite Hisin. unfold parse_news_page. cbn [nd_isin].
    destruct (search_isin _) as [c|] eqn:Hsearch; [|done].
    apply search_isin_found in Hsearch as [Hshape _].
    apply truthy_nonempty. intros ->. discriminate Hshape. }
  assert (Hp : match payment_amount n with Some a => truthy a = true | None => True end).
  { rewrite Hpay. unfold parse_news_page. cbn [nd_payment_amount].
    destruct (search_payment text) as [g|]; [|done].
    apply truthy_nonempty. intros Hempty. by apply app_eq_nil in Hempty as [_ ?]. }
  assert (Ht : truthy (event_type n) = true).
  { rewrite Htype. unfold parse_news_page. cbn [nd_event_type].
    apply detect_event_type_truthy. }
  assert (Hu : truthy (news_url n) = true).
  { apply truthy_nonempty. rewrite Hurl. unfold item_url.
    destruct href as [|c href]; [discriminate Hpat|].
    by destruct (startswith (lit "/") (c :: href)). }
  rewrite Ht, Hu.
  destruct (isin n) as [c|]; [rewrite Hi|]; (destruct (payment_amount n) as [a|];
    [rewrite Hp|]); rewrite <- ?app_assoc; reflexivity.
Qed.

Lemma occurs_in_join (sep x : pystr) (l : list pystr) :
  x ∈ l -> occurs_in x (str_join sep l).
Proof.
  induction l as [|y l IH]; intros Hx; [by apply elem_of_nil in Hx|].
  cbn [str_join]. apply elem_of_cons in Hx as [->|Hx].
  - destruct l as [|z l]; [exists [], []; by rewrite app_nil_r|].
    by exists [], (sep ++ str_join sep (z :: l)).
  - destruct l as [|z l]; [by apply elem_of_nil in Hx|].
    destruct (IH Hx) as (pre & post & Heq). rewrite Heq.
    exists (y ++ sep ++ pre), post. by rewrite <- !app_assoc.
Qed.

(** X16. After an accepted [/add], [/list] shows the code: when the normal
    form of the argument has the ISIN shape, the answer of [/list] for the
    same user is a text in which the bullet of that code occurs. *)
Theorem X16_list_shows_an_added_code (arg : pystr) (rest : list pystr)
    (user_id : Z) (db : database) :
  isin_shape (strip (upper arg)) = true ->
  exists answer,
    list_isins user_id (fst (add_isin (arg :: rest) user_id db)) = Ok answer
    /\ occurs_in (lit "• `" ++ strip (upper arg) ++ lit "`") answer.
Proof.
  intros Hshape.
  destruct (add_isin_valid arg rest user_id db Hshape) as [Hout Hin].
  rewrite Hout. cbn [fst].
  set (code := strip (upper arg)) in *.
  set (db1 := fst (add_isin_tracking code user_id db)) in *.
  unfold list_isins.
  rewrite get_user_isins_listed by apply add_isin_tracking_creates.
  apply listed_codes_elem in Hin.
  destruct (listed_codes user_id (subscriptions db1)) as [|c codes] eqn:Hcodes;
    [by apply elem_of_nil in Hin|].
  eexists. split; [reflexivity|].
  destruct (occurs_in_join [10] (lit "• `" ++ code ++ lit "`")
              (map (fun isin => lit "• `" ++ isin ++ lit "`") (c :: codes)))
    as (pre & post & Heq).
  { apply elem_of_map. by exists code. }
  rewrite Heq.
  exists (lit "📋 **Ваши ISIN коды:**" ++ [10; 10] ++ pre), post.
  by rewrite <- !app_assoc.
Qed.

(** X15. [/last] answers that the news could not be obtained exactly when
    the fetcher has no candidate, so on every failed fetch and also on a
    page without item links; otherwise it lists the first five candidates
    at most, one entry each. *)
Theorem X15_last_reports_failure_without_candidates (clock : nat -> datetime)
    (outcome : fetch_outcome) :
  (show_last_news clock outcome = lit "❌ Не удалось получить новости"
   <-> get_recent_news clock outcome = [])
  /\ (fetch_failed outcome ->
      show_last_news clock outcome = lit "❌ Не удалось получить новости")
  /\ (get_recent_news clock outcome <> [] ->
      show_last_news clock outcome
      = lit "📰 **Последние новости:**" ++ [10; 10]
        ++ concat (map last_news_entry (take 5 (get_recent_news clock outcome)))).
Proof.
  assert (Hsome : get_recent_news clock outcome <> [] ->
      show_last_news clock outcome
      = lit "📰 **Последние новости:**" ++ [10; 10]
        ++ concat (map last_news_entry (take 5 (get_recent_news clock outcome)))).
  { unfold show_last_news. by destruct (get_recent_news clock outcome). }
  assert (Hnone : get_recent_news clock outcome = [] ->
      show_last_news clock outcome = lit "❌ Не удалось получить новости").
  { unfold show_last_news. by intros ->. }
  split_and!; [split; [|done]| |done].
  - intros Hmsg. destruct (get_recent_news clock outcome) as [|n l] eqn:Hl; [done|].
    rewrite Hsome in Hmsg by done. apply (f_equal head) in Hmsg.
    vm_compute in Hmsg. discriminate Hmsg.
  - intros Hfail. apply Hnone.
    unfold get_recent_news, get_recent_news_try.
    destruct outcome as [status_code text|f]; [|done].
    simpl in Hfail. by rewrite bool_decide_eq_true_2.
Qed.



End Bot.

(** ** The program on concrete inputs *)

(** The handler rejects [RU123] and accepts [RU000A106SE5]. *)
Example add_isin_rejects_RU123 :
  add_isin sample_unicode_upper [lit "RU123"] 7 empty_db = (empty_db, ReplyInvalidFormat).
Proof. reflexivity. Qed.

Example add_isin_accepts_RU000A106SE5 :
  add_isin sample_unicode_upper [lit "RU000A106SE5"] 7 empty_db
  = ({| tracked_news := []; user_isins := Some [(7%Z, lit "RU000A106SE5")] |},
     ReplyAdded (lit "RU000A106SE5")).
Proof. reflexivity. Qed.

(** The store-level operation keeps [RU123] all the same. *)
Example add_isin_tracking_keeps_RU123 :
  add_isin_tracking sample_unicode_upper (lit "RU123") 7 empty_db
  = ({| tracked_news := []; user_isins := Some [(7%Z, lit "RU123")] |}, true).
Proof. reflexivity. Qed.

(** The extractor on a heading that names a coupon payment. *)
Example parse_news_page_coupon :
  parse_news_page (sample_parser page_two_items) sample_str_lower
    sample_unicode_decimal (march_7 0) index_text
  = {| nd_title := lit "Выплата купонного дохода RU000A106SE5";
       nd_isin := Some (lit "RU000A106SE5");
       nd_event_type := lit "Выплата купонного дохода";
       nd_payment_amount := Some (lit "12,50 руб.");
       nd_published_date := lit "07.03.2025" |}.
Proof. reflexivity. Qed.

(** The routing example of the specification: of three events, with the
    first ISIN tracked, no ISIN, and an untracked ISIN, the subscriber
    gets the first alone. *)
Example relevant_news_example :
  let e1 := sample_news (lit "1") in
  let e2 := {| news_id := lit "2"; news_url := []; title := []; isin := None;
               event_type := []; payment_amount := None; published_date := [] |} in
  let e3 := {| news_id := lit "3"; news_url := []; title := [];
               isin := Some (lit "RU000A999XX1");
               event_type := []; payment_amount := None; published_date := [] |} in
  relevant_news [lit "RU000A106SE5"] [e1; e2; e3] = [e1].
Proof. reflexivity. Qed.

(** The store-level operation upper-cases what it stores. *)
Example add_isin_tracking_call_upper_cases :
  add_isin_tracking_call sample_unicode_upper (lit "ru123x") 7 empty_db
  = ({| tracked_news := []; user_isins := Some [(7%Z, lit "RU123X")] |}, Ok true).
Proof. reflexivity. Qed.

(** C8: on markup that the parser gives up on, [parse_news_page] raises. *)
Lemma C8_rejected_markup_raises :
  sample_parser_rejects (lit "<![x y]>") = true
  /\ parse_news_page_call (sample_parser []) sample_str_lower sample_unicode_decimal
       sample_parser_rejects (march_7 0) (lit "<![x y]>")
     = Raise ParserRejectedMarkup.
Proof. split; reflexivity. Qed.

(** C10: an identifier of 2^63 is refused with [OverflowError] and a string
    with the surrogate U+D800 with [UnicodeEncodeError]; the table is
    created and holds no row. *)
Lemma C10_unbindable_values_are_refused :
  add_isin_tracking_call sample_unicode_upper (lit "RU000A106SE5")
    9223372036854775808 empty_db
  = ({| tracked_news := []; user_isins := Some [] |}, Raise OverflowError)
  /\ add_isin_tracking_call sample_unicode_upper [55296] 7 empty_db
     = ({| tracked_news := []; user_isins := Some [] |}, Raise UnicodeEncodeError).
Proof. split; reflexivity. Qed.


(** C5: [ru000a106se5] is not [RU] followed by ten alphanumeric characters,
    and the handler accepts it and stores its upper-case form; so it does
    with a code of eleven characters whose last upper-cases to two. *)
Lemma C5_lower_case_code_is_accepted :
  spec_isin_pattern (lit "ru000a106se5") = false
  /\ add_isin sample_unicode_upper [lit "ru000a106se5"] 7 empty_db
     = ({| tracked_news := []; user_isins := Some [(7%Z, lit "RU000A106SE5")] |},
        ReplyAdded (lit "RU000A106SE5"))
  /\ spec_isin_pattern (lit "RU00000000ß") = false
  /\ add_isin sample_unicode_upper [lit "RU00000000ß"] 7 empty_db
     = ({| tracked_news := []; user_isins := Some [(7%Z, lit "RU00000000SS")] |},
        ReplyAdded (lit "RU00000000SS")).
Proof. split_and!; reflexivity. Qed.


(** C9: the link [../ru/news/view/7] is relative and is selected, and its
    candidate keeps it as it stands: the address is not under the base URL. *)
Lemma C9_path_relative_link_is_not_resolved :
  let href := lit "../ru/news/view/7" in
  is_relative href = true
  /\ map news_url
       (get_recent_news (sample_parser page_relative_link) sample_str_lower
          sample_unicode_decimal march_7 (Responded 200 index_text))
     = [href]
  /\ under_base href = false.
Proof. cbv zeta. split_and!; reflexivity. Qed.


(** C3 on a page with two items under one heading: both candidates carry
    the ISIN of the heading. *)
Lemma C3_candidates_carry_index_page_fields_witness :
  let candidates :=
    get_recent_news (sample_parser page_two_items) sample_str_lower
      sample_unicode_decimal march_7 (Responded 200 index_text) in
  exists n1 n2,
    candidates = [n1; n2]
    /\ news_id n1 = lit "101" /\ news_id n2 = lit "102"
    /\ isin n1 = Some (lit "RU000A106SE5")
    /\ isin n1 = isin n2
    /\ event_type n1 = event_type n2
    /\ payment_amount n1 = payment_amount n2.
Proof.
  cbv zeta. eexists. eexists. split; [vm_compute; reflexivity|].
  split; [reflexivity|]. split; [reflexivity|]. split; [reflexivity|].
  destruct (C3_candidates_carry_index_page_fields
              (sample_parser page_two_items) sample_str_lower sample_unicode_decimal
              march_7 (Responded 200 index_text) _ _
              (list_elem_of_here _ _) (list_elem_of_further _ _ _ (list_elem_of_here _ _)))
    as (text & i1 & i2 & _ & _ & _ & _ & _ & _ & Hi & He & Hp).
  split_and!; [exact Hi|exact He|exact Hp].
Defined.


(** C7 on a 503 answer and on a timeout. *)
Lemma C7_failed_fetch_changes_nothing_witness :
  let db := {| tracked_news := [sample_news (lit "101")];
               user_isins := Some [(7%Z, lit "RU000A106SE5")] |} in
  fetch_failed (Responded 503 index_text)
  /\ check_new_news (sample_parser page_two_items) sample_str_lower
       sample_unicode_decimal march_7 (Responded 503 index_text) db = (db, [])
  /\ fetch_failed (Failed Timeout)
  /\ check_new_news (sample_parser page_two_items) sample_str_lower
       sample_unicode_decimal march_7 (Failed Timeout) db = (db, []).
Proof.
  cbv zeta.
  assert (H503 : fetch_failed (Responded 503 index_text)) by (simpl; lia).
  assert (Htimeout : fetch_failed (Failed Timeout)) by exact I.
  split_and!; [exact H503| |exact Htimeout|].
  - exact (proj1 (proj2 (C7_failed_fetch_changes_nothing (sample_parser page_two_items)
               sample_str_lower sample_unicode_decimal march_7 _ _ H503))).
  - exact (proj1 (proj2 (C7_failed_fetch_changes_nothing (sample_parser page_two_items)
               sample_str_lower sample_unicode_decimal march_7 _ _ Htimeout))).
Defined.

(** C8 on a page without heading and without date. *)
Lemma C8_parse_news_page_defaults_witness :
  plausible_date (march_7 0)
  /\ exists details,
       parse_news_page_call (sample_parser page_relative_link) sample_str_lower
         sample_unicode_decimal sample_parser_rejects (march_7 0)
         (lit "<p>no heading, no date</p>") = Ok details
       /\ nd_title details = lit "Неизвестно"
       /\ nd_isin details = None
       /\ nd_published_date details = lit "07.03.2025"
       /\ is_dd_mm_yyyy (nd_published_date details) = true
       /\ writes_date (nd_published_date details) (march_7 0)
       /\ nd_payment_amount details = None.
Proof.
  assert (Hnow : plausible_date (march_7 0)) by (vm_compute; repeat split; discriminate).
  split; [exact Hnow|].
  pose proof (C8_parse_news_page_defaults (sample_parser page_relative_link)
                sample_str_lower sample_unicode_decimal sample_parser_rejects
                (march_7 0) (lit "<p>no heading, no date</p>") Hnow) as H.
  change (sample_parser_rejects (lit "<p>no heading, no date</p>")) with false in H.
  cbv iota in H.
  destruct H as (details & Hcall & Htitle & Hdate & Hpay & _ & _).
  destruct (Htitle eq_refl) as [Ht Hi].
  destruct (Hdate eq_refl) as (Hd & Hshape & Hwrites).
  exists details.
  split_and!; [exact Hcall|exact Ht|exact Hi| |exact Hshape|exact Hwrites
              |exact (Hpay eq_refl)].
  rewrite Hd. reflexivity.
Defined.

(** X4 on a run from the fresh database: a subscription in lower case, a
    job, [/list], [/check] and a second job. *)
Lemma X4_run_keeps_database_in_order_witness :
  let fetch := Responded 200 index_text in
  let updates :=
    [CmdAdd [lit "ru000a106se5"] 7; JobCheck march_7 fetch; CmdList 7;
     CmdCheck 7 march_7 fetch; JobCheck march_7 fetch] in
  let after :=
    fst (run (sample_parser page_two_items) sample_unicode_upper sample_str_lower
           sample_unicode_decimal updates empty_db) in
  database_ok empty_db
  /\ database_ok after
  /\ tracked_news empty_db `prefix_of` tracked_news after
  /\ subscriptions empty_db `prefix_of` subscriptions after.
Proof.
  cbv zeta.
  assert (Hempty : database_ok empty_db).
  { split_and!; [vm_compute; constructor|vm_compute; constructor|constructor]. }
  split; [exact Hempty|].
  exact (X4_run_keeps_database_in_order (sample_parser page_two_items)
           sample_unicode_upper sample_str_lower sample_unicode_decimal _ empty_db Hempty).
Defined.

(** X6 on the first item of the sample page. *)
Lemma X6_event_code_can_be_subscribed_witness :
  let candidates :=
    get_recent_news (sample_parser page_two_items) sample_str_lower
      sample_unicode_decimal march_7 (Responded 200 index_text) in
  exists n others,
    candidates = n :: others
    /\ isin n = Some (lit "RU000A106SE5")
    /\ tracks (subscriptions
                 (fst (add_isin sample_unicode_upper [lit "RU000A106SE5"] 7 empty_db)))
              7 n = true.
Proof.
  cbv zeta. eexists. eexists. split; [vm_compute; reflexivity|].
  split; [reflexivity|].
  exact (proj1 (proj2 (X6_event_code_can_be_subscribed
           (sample_parser page_two_items) sample_unicode_upper sample_str_lower
           sample_unicode_decimal march_7 (Responded 200 index_text) _
           (lit "RU000A106SE5") [] 7 empty_db
           (list_elem_of_here _ _) eq_refl))).
Defined.

(** X8 and X9 on the first item of the sample page. *)
Lemma X8_candidate_titles_are_trimmed_witness :
  let candidates :=
    get_recent_news (sample_parser page_two_items) sample_str_lower
      sample_unicode_decimal march_7 (Responded 200 index_text) in
  exists n others,
    candidates = n :: others
    /\ title n = lit "Купон"
    /\ title n <> [] /\ trimmed (title n).
Proof.
  cbv zeta. eexists. eexists. split; [vm_compute; reflexivity|].
  split; [reflexivity|].
  exact (X8_candidate_titles_are_trimmed (sample_parser page_two_items)
           sample_str_lower sample_unicode_decimal march_7 (Responded 200 index_text) _
           (list_elem_of_here _ _)).
Defined.

Lemma X9_news_id_can_be_read_off_the_url_witness :
  let candidates :=
    get_recent_news (sample_parser page_two_items) sample_str_lower
      sample_unicode_decimal march_7 (Responded 200 index_text) in
  exists n others,
    candidates = n :: others
    /\ news_url n = lit "https://nsddata.ru/ru/news/view/101"
    /\ last_piece (split_on 47 (news_url n)) = news_id n
    /\ contains (lit "/ru/news/view/") (news_url n) = true.
Proof.
  cbv zeta. eexists. eexists. split; [vm_compute; reflexivity|].
  split; [reflexivity|].
  exact (X9_news_id_can_be_read_off_the_url (sample_parser page_two_items)
           sample_str_lower sample_unicode_decimal march_7 (Responded 200 index_text) _
           (list_elem_of_here _ _)).
Defined.

(** X11 on two spellings of one code. *)
Lemma X11_add_again_in_another_spelling_witness :
  let first := add_isin sample_unicode_upper [lit "ru000a106se5"] 7 empty_db in
  strip (upper sample_unicode_upper (lit "ru000a106se5"))
  = strip (upper sample_unicode_upper (lit "Ru000A106se5"))
  /\ isin_shape (strip (upper sample_unicode_upper (lit "ru000a106se5"))) = true
  /\ add_isin sample_unicode_upper [lit "Ru000A106se5"] 7 (fst first)
     = (fst first,
        ReplyAlreadyTracked (strip (upper sample_unicode_upper (lit "ru000a106se5")))).
Proof.
  cbv zeta. split; [reflexivity|]. split; [reflexivity|].
  exact (X11_add_again_in_another_spelling sample_unicode_upper
           (lit "ru000a106se5") (lit "Ru000A106se5") [] [] 7 empty_db
           eq_refl eq_refl).
Defined.

(** X12 on the fresh database. *)
Lemma X12_no_table_before_first_add_witness :
  user_isins empty_db = None
  /\ list_isins 7 empty_db = Raise OperationalError
  /\ manual_check (sample_parser page_two_items) sample_str_lower
       sample_unicode_decimal march_7 (Responded 200 index_text) 7 empty_db
     = Raise OperationalError
  /\ exists answer,
       list_isins 7 (fst (add_isin_tracking sample_unicode_upper
                            (lit "RU000A106SE5") 8 empty_db)) = Ok answer.
Proof.
  destruct (X12_no_table_before_first_add (sample_parser page_two_items)
              sample_unicode_upper sample_str_lower sample_unicode_decimal
              march_7 (Responded 200 index_text) 7 empty_db eq_refl)
    as (Hlist & Hcheck & _ & Hafter).
  split_and!; [reflexivity|exact Hlist|exact Hcheck|exact (Hafter _ 8%Z)].
Defined.


(** X14 on the first item of the sample page. *)
Lemma X14_message_of_a_candidate_witness :
  let candidates :=
    get_recent_news (sample_parser page_two_items) sample_str_lower
      sample_unicode_decimal march_7 (Responded 200 index_text) in
  exists n others,
    candidates = n :: others
    /\ format_news_message n =
         lit "👔 **НОВОЕ СОБЫТИЕ**" ++ [10; 10]
         ++ match isin n with
            | Some i => lit "`" ++ i ++ lit "`" ++ [10; 10]
            | None => []
            end
         ++ (if truthy (published_date n)
             then lit "🗓 *" ++ published_date n ++ lit "*" ++ [10] else [])
         ++ lit "📋 *" ++ event_type n ++ lit "*" ++ [10; 10]
         ++ lit "*" ++ title n ++ lit "*" ++ [10]
         ++ match payment_amount n with
            | Some p => [10] ++ lit "💰 *Размер выплаты:* " ++ p
            | None => []
            end
         ++ [10; 10] ++ lit "🔗 [Подробнее](" ++ news_url n ++ lit ")".
Proof.
  cbv zeta. eexists. eexists. split; [vm_compute; reflexivity|].
  exact (X14_message_of_a_candidate (sample_parser page_two_items)
           sample_str_lower sample_unicode_decimal march_7 (Responded 200 index_text) _
           (list_elem_of_here _ _)).
Defined.

(** X16 on a code given in lower case. *)
Lemma X16_list_shows_an_added_code_witness :
  isin_shape (strip (upper sample_unicode_upper (lit "ru000a106se5"))) = true
  /\ exists answer,
       list_isins 7 (fst (add_isin sample_unicode_upper [lit "ru000a106se5"] 7 empty_db))
       = Ok answer
       /\ occurs_in (lit "• `" ++ strip (upper sample_unicode_upper (lit "ru000a106se5"))
                     ++ lit "`") answer.
Proof.
  split; [reflexivity|].
  exact (X16_list_shows_an_added_code sample_unicode_upper (lit "ru000a106se5") []
           7 empty_db eq_refl).
Defined.
